(** * LLM provider tester: the request/response adapter layer

    A shallow embedding of [src/lib/api.ts]: the two exported operations
    [validateApiKey] and [sendPromptToLLM], the JavaScript values they
    inspect, and the one [fetch] call each of them may issue. *)

From Stdlib Require Import List String Ascii NArith Bool.
Import ListNotations.

Set Warnings "-register-all".

(** ** JavaScript strings and values *)

Module JS.

(** A JavaScript string is a sequence of UTF-16 code units. *)
Definition code_unit := N.
Definition jsstring := list code_unit.

(** A string literal of the source (ASCII only, as all of them are). *)
Definition lit (s : string) : jsstring :=
  map N_of_ascii (list_ascii_of_string s).

Definition str_eqb (a b : jsstring) : bool :=
  if list_eq_dec N.eq_dec a b then true else false.

(** ECMAScript [WhiteSpace] and [LineTerminator] code points: the ones
    [String.prototype.trim] strips.  All of them are in the BMP. *)
Definition isWhiteSpace (c : code_unit) : bool :=
  match c with
  | 0x0009 | 0x000B | 0x000C | 0x0020 | 0x00A0 | 0xFEFF      (* WhiteSpace *)
  | 0x1680 | 0x202F | 0x205F | 0x3000 => true                (* other Zs *)
  | 0x000A | 0x000D | 0x2028 | 0x2029 => true                (* LineTerminator *)
  | _ => (0x2000 <=? c) && (c <=? 0x200A)                    (* Zs, en quad .. hair space *)
  end%N.

Fixpoint trimStart (s : jsstring) : jsstring :=
  match s with
  | [] => []
  | c :: rest => if isWhiteSpace c then trimStart rest else s
  end.

Definition trimEnd (s : jsstring) : jsstring := rev (trimStart (rev s)).

(** [s.trim()] *)
Definition trim (s : jsstring) : jsstring := trimEnd (trimStart s).

(** The spec's "empty or whitespace-only". *)
Definition blank (s : jsstring) : bool := forallb isWhiteSpace s.

(** A Number is carried as its [Number::toString] rendering ("0.7", "1000",
    "NaN", ...): truthiness and string conversion are the only things the
    program ever does with a number it receives. *)
Definition number := jsstring.

(** The values the program handles: what [JSON.parse] yields, plus
    [undefined], which reading a missing property yields. An object is the
    list of its own properties, each key once. *)
Inductive value : Type :=
| VUndefined
| VNull
| VBool (b : bool)
| VNum (n : number)
| VStr (s : jsstring)
| VArr (elems : list value)
| VObj (props : list (jsstring * value)).

(** The [TypeError]s the engine itself raises while the program runs. Their
    message text is implementation-defined. *)
Inductive type_error : Type :=
| ReadOfUndefined (p : jsstring)    (* undefined.p *)
| ReadOfNull (p : jsstring)         (* null.p *)
| NoPrimitiveValue.                 (* ToPrimitive found nothing callable *)

(** What a [throw] (or a rejected promise) carries. Every built-in error
    ([TypeError], [SyntaxError], [DOMException]) is an instance of [Error]
    with a string message. *)
Inductive thrown : Type :=
| ErrorObject (msg : jsstring)      (* instanceof Error, with its message *)
| EngineError (e : type_error)      (* instanceof Error, engine's wording *)
| NonError.                         (* anything that is not an Error *)

(** Completion of an evaluation: a value, or an exception. *)
Inductive completion (A : Type) : Type :=
| Normal (a : A)
| Throw (t : thrown).
Arguments Normal {A} a.
Arguments Throw {A} t.

Fixpoint own_property (p : jsstring) (props : list (jsstring * value))
  : option value :=
  match props with
  | [] => None
  | (k, v) :: rest => if str_eqb k p then Some v else own_property p rest
  end.

(** [base.p] for a property name [p] that no built-in prototype defines
    (error, message, choices, content, text, candidates, parts). *)
Definition Get (base : value) (p : jsstring) : completion value :=
  match base with
  | VUndefined => Throw (EngineError (ReadOfUndefined p))
  | VNull => Throw (EngineError (ReadOfNull p))
  | VObj props =>
      Normal (match own_property p props with Some v => v | None => VUndefined end)
  | VBool _ | VNum _ | VStr _ | VArr _ => Normal VUndefined
  end.

(** [base[0]] *)
Definition GetIndex0 (base : value) : completion value :=
  match base with
  | VUndefined => Throw (EngineError (ReadOfUndefined (lit "0")))
  | VNull => Throw (EngineError (ReadOfNull (lit "0")))
  | VArr elems => Normal (match elems with v :: _ => v | [] => VUndefined end)
  | VStr s => Normal (match s with c :: _ => VStr [c] | [] => VUndefined end)
  | VObj props =>
      Normal (match own_property (lit "0") props with
              | Some v => v | None => VUndefined end)
  | VBool _ | VNum _ => Normal VUndefined
  end.

(** [base?.p] *)
Definition GetOptional (base : value) (p : jsstring) : completion value :=
  match base with
  | VUndefined | VNull => Normal VUndefined
  | _ => Get base p
  end.

Definition ToBoolean (v : value) : bool :=
  match v with
  | VUndefined | VNull => false
  | VBool b => b
  | VNum n => negb (str_eqb n (lit "0") || str_eqb n (lit "NaN"))
  | VStr s => match s with [] => false | _ => true end
  | VArr _ | VObj _ => true
  end.

(** [a || b] with [b] a constant *)
Definition or_else (a b : value) : value := if ToBoolean a then a else b.

(** [ToString], as a template literal applies it. An array goes through
    [Array.prototype.join]; a parsed object has only data properties, so it
    prints as [[object Object]] unless an own "toString" key hides
    [Object.prototype.toString], in which case nothing callable is left. *)
Fixpoint ToString (v : value) : completion jsstring :=
  match v with
  | VUndefined => Normal (lit "undefined")
  | VNull => Normal (lit "null")
  | VBool true => Normal (lit "true")
  | VBool false => Normal (lit "false")
  | VNum n => Normal n
  | VStr s => Normal s
  | VArr elems =>
      (fix join (l : list value) : completion jsstring :=
         match l with
         | [] => Normal []
         | x :: rest =>
             match (match x with
                    | VUndefined | VNull => Normal []
                    | _ => ToString x
                    end) with
             | Throw t => Throw t
             | Normal s =>
                 match rest with
                 | [] => Normal s
                 | _ :: _ =>
                     match join rest with
                     | Throw t => Throw t
                     | Normal r => Normal (s ++ lit "," ++ r)
                     end
                 end
             end
         end) elems
  | VObj props =>
      match own_property (lit "toString") props with
      | Some _ => Throw (EngineError NoPrimitiveValue)
      | None => Normal (lit "[object Object]")
      end
  end.

(** [v === 'literal'] *)
Definition strict_equals (v : value) (s : jsstring) : bool :=
  match v with
  | VStr t => str_eqb t s
  | _ => false
  end.

End JS.
Export JS.

(** ** The host: [fetch], responses, and the effects of a call *)

Module Net.

(** [JSON.stringify(v)], kept as the value it serialises. *)
Inductive body_text : Type :=
| JSON_stringify (v : value).

(** The arguments of one [fetch(url, init)] call. *)
Record Request : Type := {
  url : jsstring;
  method : jsstring;
  headers : list (jsstring * jsstring);
  body : option body_text
}.

(** What the program can observe of a [Response]: its status, and how
    [response.json()] completes (the parsed body, or a rejection when the
    body cannot be read or is not JSON). *)
Record Response : Type := {
  status : N;
  json : completion value
}.

(** [response.ok]: the status is in the range 200 to 299. *)
Definition ok (r : Response) : bool :=
  ((200 <=? status r) && (status r <=? 299))%N.

(** The environment of a call: how the network answers each request (a
    response, or a rejection before any response is received), and the
    engine's wording of its own [TypeError]s. *)
Record Host : Type := {
  fetch_result : Request -> completion Response;
  TypeError_message : type_error -> jsstring
}.

(** The observable effects of a call, in order. *)
Inductive event : Type :=
| EvFetch (r : Request)
| EvConsoleError (label : jsstring) (t : thrown).

(** An [async] computation: run against a host, it leaves a trace of
    effects and completes normally (the promise resolves) or abruptly (it
    rejects). *)
Definition Async (A : Type) : Type := Host -> list event * completion A.

Definition ret {A} (a : A) : Async A := fun _ => ([], Normal a).

Definition bind {A B} (m : Async A) (k : A -> Async B) : Async B :=
  fun h =>
    match m h with
    | (tr, Normal a) => let (tr', r) := k a h in (tr ++ tr', r)
    | (tr, Throw t) => (tr, Throw t)
    end.

(** [try { m } catch (error) { handler error }] *)
Definition try_catch {A} (m : Async A) (handler : thrown -> Async A) : Async A :=
  fun h =>
    match m h with
    | (tr, Normal a) => (tr, Normal a)
    | (tr, Throw t) => let (tr', r) := handler t h in (tr ++ tr', r)
    end.

(** A pure evaluation step that may throw. *)
Definition eval {A} (c : completion A) : Async A := fun _ => ([], c).

(** [await fetch(url, init)] *)
Definition fetch (r : Request) : Async Response :=
  fun h => ([EvFetch r], fetch_result h r).

(** [await response.json()] *)
Definition response_json (r : Response) : Async value := eval (json r).

(** [console.error(label, error)] *)
Definition console_error (label : jsstring) (t : thrown) : Async unit :=
  fun _ => ([EvConsoleError label t], Normal tt).

(** [error instanceof Error] *)
Definition instanceof_Error (t : thrown) : bool :=
  match t with
  | ErrorObject _ | EngineError _ => true
  | NonError => false
  end.

(** [error.message], read only when [error] is an [Error]. *)
Definition error_message (h : Host) (t : thrown) : jsstring :=
  match t with
  | ErrorObject msg => msg
  | EngineError e => TypeError_message h e
  | NonError => []
  end.

(** [error instanceof Error ? error.message : 'Unknown error'] *)
Definition error_message_or_unknown (t : thrown) : Async jsstring :=
  fun h =>
    ([], Normal (if instanceof_Error t then error_message h t
                 else lit "Unknown error")).

(** The network calls of a trace, in order. *)
Definition fetches (tr : list event) : list Request :=
  flat_map (fun e => match e with EvFetch r => [r] | _ => [] end) tr.

End Net.
Export Net.

Declare Scope async_scope.
Delimit Scope async_scope with async.
Notation "x <- m ;; k" := (bind m (fun x => k))
  (at level 61, m at next level, right associativity) : async_scope.
Notation "m ;;; k" := (bind m (fun _ => k))
  (at level 61, right associativity) : async_scope.
Open Scope async_scope.

(** ** The adapter layer: [src/lib/api.ts] *)

Module Api.

(** [interface ApiResponse]: [message] and [data] are optional. *)
Record ApiResponse : Type := {
  success : bool;
  message : option jsstring;
  data : option value
}.

(** [{ success: false, message: msg }] *)
Definition failure (msg : jsstring) : ApiResponse :=
  {| success := false; message := Some msg; data := None |}.

(** [{ success: true, message: msg }] *)
Definition valid (msg : jsstring) : ApiResponse :=
  {| success := true; message := Some msg; data := None |}.

(** [{ success: true, data: v }] *)
Definition generated (v : value) : ApiResponse :=
  {| success := true; message := None; data := Some v |}.

(** [!s.trim()] *)
Definition not_trim (s : jsstring) : bool :=
  match trim s with [] => true | _ :: _ => false end.

(** [error.error?.message] *)
Definition error_message_field (error : value) : completion value :=
  match Get error (lit "error") with
  | Throw t => Throw t
  | Normal inner => GetOptional inner (lit "message")
  end.

(** The text of [${error.error?.message || 'Unknown error'}]. *)
Definition error_detail (error : value) : completion jsstring :=
  match error_message_field error with
  | Throw t => Throw t
  | Normal msg => ToString (or_else msg (VStr (lit "Unknown error")))
  end.

Definition validate_openai_request (apiKey : jsstring) : Request :=
  {| url := lit "https://api.openai.com/v1/models";
     method := lit "GET";
     headers := [ (lit "Authorization", lit "Bearer " ++ apiKey);
                  (lit "Content-Type", lit "application/json") ];
     body := None |}.

Definition validate_anthropic_request (apiKey : jsstring) : Request :=
  {| url := lit "https://api.anthropic.com/v1/messages";
     method := lit "POST";
     headers := [ (lit "x-api-key", apiKey);
                  (lit "anthropic-version", lit "2023-06-01");
                  (lit "Content-Type", lit "application/json") ];
     body := Some (JSON_stringify (VObj
       [ (lit "model", VStr (lit "claude-3-5-haiku-20241022"));
         (lit "max_tokens", VNum (lit "1"));
         (lit "messages",
          VArr [ VObj [ (lit "role", VStr (lit "user"));
                        (lit "content", VStr (lit "Hello")) ] ]) ])) |}.

Definition validate_gemini_request (apiKey : jsstring) : Request :=
  {| url := lit "https://generativelanguage.googleapis.com/v1beta/models?key="
            ++ apiKey;
     method := lit "GET";
     headers := [ (lit "Content-Type", lit "application/json") ];
     body := None |}.

(** The [try] block of [validateApiKey]. *)
Definition validateApiKey_try (provider : value) (apiKey : jsstring)
  : Async ApiResponse :=
  if not_trim apiKey then
    ret (failure (lit "API key cannot be empty"))
  else if strict_equals provider (lit "openai") then
    response <- fetch (validate_openai_request apiKey) ;;
    if ok response then
      ret (valid (lit "OpenAI API key is valid"))
    else
      error <- response_json response ;;
      detail <- eval (error_detail error) ;;
      ret (failure (lit "Invalid OpenAI API key: " ++ detail))
  else if strict_equals provider (lit "anthropic") then
    response <- fetch (validate_anthropic_request apiKey) ;;
    if ok response then
      ret (valid (lit "Anthropic API key is valid"))
    else
      error <- response_json response ;;
      detail <- eval (error_detail error) ;;
      ret (failure (lit "Invalid Anthropic API key: " ++ detail))
  else if strict_equals provider (lit "gemini") then
    response <- fetch (validate_gemini_request apiKey) ;;
    if ok response then
      ret (valid (lit "Gemini API key is valid"))
    else
      error <- response_json response ;;
      detail <- eval (error_detail error) ;;
      ret (failure (lit "Invalid Gemini API key: " ++ detail))
  else
    ret (failure (lit "Unknown provider")).

(** The [catch] block of [validateApiKey]. *)
Definition validateApiKey_catch (error : thrown) : Async ApiResponse :=
  console_error (lit "API key validation error:") error ;;;
  detail <- error_message_or_unknown error ;;
  ret (failure (lit "Error validating API key: " ++ detail)).

Definition validateApiKey (provider : value) (apiKey : jsstring)
  : Async ApiResponse :=
  try_catch (validateApiKey_try provider apiKey) validateApiKey_catch.

Definition user_message (prompt : jsstring) : value :=
  VArr [ VObj [ (lit "role", VStr (lit "user"));
                (lit "content", VStr prompt) ] ].

Definition send_openai_request (model apiKey prompt : jsstring) : Request :=
  {| url := lit "https://api.openai.com/v1/chat/completions";
     method := lit "POST";
     headers := [ (lit "Authorization", lit "Bearer " ++ apiKey);
                  (lit "Content-Type", lit "application/json") ];
     body := Some (JSON_stringify (VObj
       [ (lit "model", VStr model);
         (lit "messages", user_message prompt);
         (lit "temperature", VNum (lit "0.7")) ])) |}.

Definition send_anthropic_request (model apiKey prompt : jsstring) : Request :=
  {| url := lit "https://api.anthropic.com/v1/messages";
     method := lit "POST";
     headers := [ (lit "x-api-key", apiKey);
                  (lit "anthropic-version", lit "2023-06-01");
                  (lit "Content-Type", lit "application/json") ];
     body := Some (JSON_stringify (VObj
       [ (lit "model", VStr model);
         (lit "max_tokens", VNum (lit "1000"));
         (lit "messages", user_message prompt) ])) |}.

Definition send_gemini_request (model apiKey prompt : jsstring) : Request :=
  {| url := lit "https://generativelanguage.googleapis.com/v1beta/models/"
            ++ model ++ lit ":generateContent?key=" ++ apiKey;
     method := lit "POST";
     headers := [ (lit "Content-Type", lit "application/json") ];
     body := Some (JSON_stringify (VObj
       [ (lit "contents",
          VArr [ VObj [ (lit "parts",
                         VArr [ VObj [ (lit "text", VStr prompt) ] ]) ] ]);
         (lit "generationConfig",
          VObj [ (lit "temperature", VNum (lit "0.7"));
                 (lit "maxOutputTokens", VNum (lit "1000")) ]) ])) |}.

(** [data.choices[0].message.content] *)
Definition openai_text (data : value) : completion value :=
  match Get data (lit "choices") with
  | Throw t => Throw t
  | Normal choices =>
      match GetIndex0 choices with
      | Throw t => Throw t
      | Normal choice =>
          match Get choice (lit "message") with
          | Throw t => Throw t
          | Normal msg => Get msg (lit "content")
          end
      end
  end.

(** [data.content[0].text] *)
Definition anthropic_text (data : value) : completion value :=
  match Get data (lit "content") with
  | Throw t => Throw t
  | Normal content =>
      match GetIndex0 content with
      | Throw t => Throw t
      | Normal block => Get block (lit "text")
      end
  end.

(** [data.candidates[0].content.parts[0].text] *)
Definition gemini_text (data : value) : completion value :=
  match Get data (lit "candidates") with
  | Throw t => Throw t
  | Normal candidates =>
      match GetIndex0 candidates with
      | Throw t => Throw t
      | Normal candidate =>
          match Get candidate (lit "content") with
          | Throw t => Throw t
          | Normal content =>
              match Get content (lit "parts") with
              | Throw t => Throw t
              | Normal parts =>
                  match GetIndex0 parts with
                  | Throw t => Throw t
                  | Normal part => Get part (lit "text")
                  end
              end
          end
      end
  end.

(** The [try] block of [sendPromptToLLM]. *)
Definition sendPromptToLLM_try (provider : value) (model apiKey prompt : jsstring)
  : Async ApiResponse :=
  if not_trim apiKey then
    ret (failure (lit "API key is required"))
  else if not_trim prompt then
    ret (failure (lit "Prompt cannot be empty"))
  else if strict_equals provider (lit "openai") then
    response <- fetch (send_openai_request model apiKey prompt) ;;
    if ok response then
      data <- response_json response ;;
      text <- eval (openai_text data) ;;
      ret (generated text)
    else
      error <- response_json response ;;
      detail <- eval (error_detail error) ;;
      ret (failure (lit "OpenAI API error: " ++ detail))
  else if strict_equals provider (lit "anthropic") then
    response <- fetch (send_anthropic_request model apiKey prompt) ;;
    if ok response then
      data <- response_json response ;;
      text <- eval (anthropic_text data) ;;
      ret (generated text)
    else
      error <- response_json response ;;
      detail <- eval (error_detail error) ;;
      ret (failure (lit "Anthropic API error: " ++ detail))
  else if strict_equals provider (lit "gemini") then
    response <- fetch (send_gemini_request model apiKey prompt) ;;
    if ok response then
      data <- response_json response ;;
      text <- eval (gemini_text data) ;;
      ret (generated text)
    else
      error <- response_json response ;;
      detail <- eval (error_detail error) ;;
      ret (failure (lit "Gemini API error: " ++ detail))
  else
    ret (failure (lit "Unknown provider")).

(** The [catch] block of [sendPromptToLLM]. *)
Definition sendPromptToLLM_catch (error : thrown) : Async ApiResponse :=
  console_error (lit "LLM API error:") error ;;;
  detail <- error_message_or_unknown error ;;
  ret (failure (lit "Error sending prompt: " ++ detail)).

Definition sendPromptToLLM (provider : value) (model apiKey prompt : jsstring)
  : Async ApiResponse :=
  try_catch (sendPromptToLLM_try provider model apiKey prompt)
            sendPromptToLLM_catch.

End Api.
Export Api.

(** ** Vocabulary of the specification *)

Module Spec.

(** The closed set of supported providers. *)
Inductive Provider : Type := OpenAI | Anthropic | Gemini.

(** The identifier the caller passes for a provider. *)
Definition provider_id (p : Provider) : value :=
  match p with
  | OpenAI => VStr (lit "openai")
  | Anthropic => VStr (lit "anthropic")
  | Gemini => VStr (lit "gemini")
  end.

(** The provider's name as the messages spell it. *)
Definition provider_name (p : Provider) : jsstring :=
  match p with
  | OpenAI => lit "OpenAI"
  | Anthropic => lit "Anthropic"
  | Gemini => lit "Gemini"
  end.

(** The validation probe of each provider. *)
Definition validate_request (p : Provider) (apiKey : jsstring) : Request :=
  match p with
  | OpenAI => validate_openai_request apiKey
  | Anthropic => validate_anthropic_request apiKey
  | Gemini => validate_gemini_request apiKey
  end.

(** The generation request of each provider. *)
Definition send_request (p : Provider) (model apiKey prompt : jsstring)
  : Request :=
  match p with
  | OpenAI => send_openai_request model apiKey prompt
  | Anthropic => send_anthropic_request model apiKey prompt
  | Gemini => send_gemini_request model apiKey prompt
  end.

(** Where each provider's response carries the generated text. *)
Definition extract_text (p : Provider) (data : value) : completion value :=
  match p with
  | OpenAI => openai_text data
  | Anthropic => anthropic_text data
  | Gemini => gemini_text data
  end.

(** A provider value outside the closed set. *)
Definition unrecognized (provider : value) : Prop :=
  provider <> VStr (lit "openai") /\
  provider <> VStr (lit "anthropic") /\
  provider <> VStr (lit "gemini").

(** The value of a header of a request, if the request carries it. *)
Fixpoint header (name : jsstring) (hs : list (jsstring * jsstring))
  : option jsstring :=
  match hs with
  | [] => None
  | (k, v) :: rest => if str_eqb k name then Some v else header name rest
  end.

(** A member of the JSON object a request body serialises. *)
Definition body_member (name : jsstring) (r : Request) : option value :=
  match body r with
  | Some (JSON_stringify (VObj props)) => own_property name props
  | _ => None
  end.

(** The detail reported for a caught exception: its message when it is an
    [Error], "Unknown error" otherwise. *)
Definition exception_detail (h : Host) (t : thrown) : jsstring :=
  if instanceof_Error t then error_message h t else lit "Unknown error".

(** How a thrown exception leaves [validateApiKey], after the given trace. *)
Definition validate_caught (h : Host) (tr : list event) (t : thrown)
  : list event * completion ApiResponse :=
  (tr ++ [EvConsoleError (lit "API key validation error:") t],
   Normal (failure (lit "Error validating API key: " ++ exception_detail h t))).

(** How a thrown exception leaves [sendPromptToLLM], after the given trace. *)
Definition send_caught (h : Host) (tr : list event) (t : thrown)
  : list event * completion ApiResponse :=
  (tr ++ [EvConsoleError (lit "LLM API error:") t],
   Normal (failure (lit "Error sending prompt: " ++ exception_detail h t))).

(** The result a call resolves with, if it resolves. *)
Definition resolves_with (run : list event * completion ApiResponse)
  (r : ApiResponse) : Prop :=
  snd run = Normal r.

End Spec.
Export Spec.

(** ** Sample hosts and response bodies *)

Module Samples.

(** V8's wording of the engine's [TypeError]s. *)
Definition v8_wording (e : type_error) : jsstring :=
  match e with
  | ReadOfUndefined p =>
      lit "Cannot read properties of undefined (reading '" ++ p ++ lit "')"
  | ReadOfNull p =>
      lit "Cannot read properties of null (reading '" ++ p ++ lit "')"
  | NoPrimitiveValue => lit "Cannot convert object to primitive value"
  end.

(** A host whose network gives every request the same outcome. *)
Definition host_answering (outcome : completion Response) : Host :=
  {| fetch_result := fun _ => outcome; TypeError_message := v8_wording |}.

(** The network is down: [fetch] rejects before any response. *)
Definition offline : Host :=
  host_answering (Throw (ErrorObject (lit "Failed to fetch"))).

(** A response with the given status and parsed JSON body. *)
Definition json_response (st : N) (v : value) : Response :=
  {| status := st; json := Normal v |}.

(** A response whose body is not JSON (an empty body, say). *)
Definition unparsable_response (st : N) : Response :=
  {| status := st;
     json := Throw (ErrorObject (lit "Unexpected end of JSON input")) |}.

(** [{"error":{"message":"invalid x-api-key"}}] *)
Definition invalid_x_api_key : value :=
  VObj [ (lit "error",
          VObj [ (lit "message", VStr (lit "invalid x-api-key")) ]) ].

(** [{"error":{"message":"You exceeded your current quota"}}] *)
Definition quota_exceeded : value :=
  VObj [ (lit "error",
          VObj [ (lit "message", VStr (lit "You exceeded your current quota")) ]) ].

(** [{"choices":[{"message":{"content":"Hi!"}}]}] *)
Definition openai_hi : value :=
  VObj [ (lit "choices",
          VArr [ VObj [ (lit "message",
                         VObj [ (lit "content", VStr (lit "Hi!")) ]) ] ]) ].

(** [{"choices":[{"message":{"role":"assistant"}}]}] *)
Definition openai_no_content : value :=
  VObj [ (lit "choices",
          VArr [ VObj [ (lit "message",
                         VObj [ (lit "role", VStr (lit "assistant")) ]) ] ]) ].

(** [{"candidates":[{"content":{"parts":[{"text":"hi there"}]}}]}] *)
Definition gemini_hi_there : value :=
  VObj [ (lit "candidates",
          VArr [ VObj [ (lit "content",
                         VObj [ (lit "parts",
                                 VArr [ VObj [ (lit "text",
                                                VStr (lit "hi there")) ] ]) ]) ] ]) ].

(** [{"candidates":[]}] *)
Definition gemini_no_candidates : value :=
  VObj [ (lit "candidates", VArr []) ].

(** A network that lets only POST requests through, and answers them 200
    with the given body. *)
Definition post_only (v : value) : Host :=
  {| fetch_result := fun r =>
       if str_eqb (method r) (lit "POST")
       then Normal {| status := 200; json := Normal v |}
       else Throw (ErrorObject (lit "Failed to fetch"));
     TypeError_message := v8_wording |}.

(** [{"error":"unauthorized"}] *)
Definition error_as_text : value :=
  VObj [ (lit "error", VStr (lit "unauthorized")) ].

(** A completion whose first choice has the empty string as content. *)
Definition openai_empty_content : value :=
  VObj [ (lit "choices",
          VArr [ VObj [ (lit "message",
                         VObj [ (lit "content", VStr []) ]) ] ]) ].

(** [{"content":[{"type":"text","text":"Hello!"}]}] *)
Definition anthropic_hello : value :=
  VObj [ (lit "content",
          VArr [ VObj [ (lit "type", VStr (lit "text"));
                        (lit "text", VStr (lit "Hello!")) ] ]) ].

End Samples.
Export Samples.

(** ** The interactive shell: the two handlers of [src/App.tsx] *)

Module App.

(** The component's state: one field per [useState]. [response] is typed
    [string] but receives [result.data], which is [any]. *)
Record State : Type := {
  provider : value;
  model : jsstring;
  apiKey : jsstring;
  savedApiKey : jsstring;
  isValidKey : option bool;          (* boolean | null *)
  isValidating : bool;
  validationMessage : jsstring;
  prompt : jsstring;
  response : value;
  isLoading : bool;
  errorMessage : jsstring;
  showApiKey : bool
}.

(** The state as [App] first renders it, before the effect picks a model. *)
Definition initial : State :=
  {| provider := VStr (lit "openai"); model := []; apiKey := [];
     savedApiKey := []; isValidKey := None; isValidating := false;
     validationMessage := []; prompt := []; response := VStr [];
     isLoading := false; errorMessage := []; showApiKey := false |}.

Definition setSavedApiKey (v : jsstring) (s : State) : State :=
  {| provider := provider s; model := model s; apiKey := apiKey s;
     savedApiKey := v; isValidKey := isValidKey s;
     isValidating := isValidating s;
     validationMessage := validationMessage s; prompt := prompt s;
     response := response s; isLoading := isLoading s;
     errorMessage := errorMessage s; showApiKey := showApiKey s |}.

Definition setIsValidKey (v : option bool) (s : State) : State :=
  {| provider := provider s; model := model s; apiKey := apiKey s;
     savedApiKey := savedApiKey s; isValidKey := v;
     isValidating := isValidating s;
     validationMessage := validationMessage s; prompt := prompt s;
     response := response s; isLoading := isLoading s;
     errorMessage := errorMessage s; showApiKey := showApiKey s |}.

Definition setIsValidating (v : bool) (s : State) : State :=
  {| provider := provider s; model := model s; apiKey := apiKey s;
     savedApiKey := savedApiKey s; isValidKey := isValidKey s;
     isValidating := v;
     validationMessage := validationMessage s; prompt := prompt s;
     response := response s; isLoading := isLoading s;
     errorMessage := errorMessage s; showApiKey := showApiKey s |}.

Definition setValidationMessage (v : jsstring) (s : State) : State :=
  {| provider := provider s; model := model s; apiKey := apiKey s;
     savedApiKey := savedApiKey s; isValidKey := isValidKey s;
     isValidating := isValidating s;
     validationMessage := v; prompt := prompt s;
     response := response s; isLoading := isLoading s;
     errorMessage := errorMessage s; showApiKey := showApiKey s |}.

Definition setResponse (v : value) (s : State) : State :=
  {| provider := provider s; model := model s; apiKey := apiKey s;
     savedApiKey := savedApiKey s; isValidKey := isValidKey s;
     isValidating := isValidating s;
     validationMessage := validationMessage s; prompt := prompt s;
     response := v; isLoading := isLoading s;
     errorMessage := errorMessage s; showApiKey := showApiKey s |}.

Definition setIsLoading (v : bool) (s : State) : State :=
  {| provider := provider s; model := model s; apiKey := apiKey s;
     savedApiKey := savedApiKey s; isValidKey := isValidKey s;
     isValidating := isValidating s;
     validationMessage := validationMessage s; prompt := prompt s;
     response := response s; isLoading := v;
     errorMessage := errorMessage s; showApiKey := showApiKey s |}.

Definition setErrorMessage (v : jsstring) (s : State) : State :=
  {| provider := provider s; model := model s; apiKey := apiKey s;
     savedApiKey := savedApiKey s; isValidKey := isValidKey s;
     isValidating := isValidating s;
     validationMessage := validationMessage s; prompt := prompt s;
     response := response s; isLoading := isLoading s;
     errorMessage := v; showApiKey := showApiKey s |}.

(** [!s] for a string *)
Definition not_string (s : jsstring) : bool :=
  match s with [] => true | _ :: _ => false end.

(** [result.message || fallback] *)
Definition message_or (r : ApiResponse) (fallback : jsstring) : jsstring :=
  match message r with
  | Some (c :: rest) => c :: rest
  | Some [] | None => fallback
  end.

(** [result.success && result.data], as a condition *)
Definition success_and_data (r : ApiResponse) : bool :=
  success r && match data r with Some v => ToBoolean v | None => false end.

(** [result.data], read from a result *)
Definition data_of (r : ApiResponse) : value :=
  match data r with Some v => v | None => VUndefined end.

(** [handleValidateApiKey], from the state [s] the handler closed over to
    the state once it has run to completion with the setters applied in
    order. The [await] is the only step of the [try] block that can throw,
    so the [catch] block starts from the state before it. *)
Definition handleValidateApiKey (s : State) : Async State :=
  if not_trim (apiKey s) then
    ret (setValidationMessage (lit "API key cannot be empty")
           (setIsValidKey (Some false) s))
  else
    let s1 := setValidationMessage [] (setIsValidating true s) in
    s2 <- try_catch
            (result <- validateApiKey (provider s) (apiKey s) ;;
             let s' := setValidationMessage (message_or result [])
                         (setIsValidKey (Some (success result)) s1) in
             ret (if success result then setSavedApiKey (apiKey s) s' else s'))
            (fun error =>
               let s' := setValidationMessage (lit "Error validating API key")
                           (setIsValidKey (Some false) s1) in
               console_error (lit "Validation error:") error ;;;
               ret s') ;;
    ret (setIsValidating false s2).

(** [handleSendPrompt], likewise. *)
Definition handleSendPrompt (s : State) : Async State :=
  if not_trim (prompt s) || not_string (savedApiKey s) then
    ret s
  else
    let s1 := setErrorMessage [] (setResponse (VStr []) (setIsLoading true s)) in
    s2 <- try_catch
            (result <- sendPromptToLLM (provider s) (model s) (savedApiKey s)
                         (prompt s) ;;
             ret (if success_and_data result
                  then setResponse (data_of result) s1
                  else setErrorMessage
                         (message_or result (lit "Unknown error occurred")) s1))
            (fun error =>
               let s' := setErrorMessage (lit "Error sending prompt to LLM") s1 in
               console_error (lit "Send prompt error:") error ;;;
               ret s') ;;
    ret (setIsLoading false s2).

(** [disabled={!savedApiKey || !prompt.trim() || isLoading}] of the send
    button. *)
Definition sendDisabled (s : State) : bool :=
  not_string (savedApiKey s) || not_trim (prompt s) || isLoading s.

(** The saved credential is either none yet or a string that is not blank. *)
Definition saved_key_ok (s : State) : Prop :=
  savedApiKey s = [] \/ blank (savedApiKey s) = false.

(** A state in which the user has typed a credential for a provider. *)
Definition typed_key (p : value) (k : jsstring) : State :=
  {| provider := p; model := []; apiKey := k;
     savedApiKey := []; isValidKey := None; isValidating := false;
     validationMessage := []; prompt := []; response := VStr [];
     isLoading := false; errorMessage := []; showApiKey := false |}.

(** A state in which a credential is saved and a prompt is typed. *)
Definition ready (p : value) (m k q : jsstring) : State :=
  {| provider := p; model := m; apiKey := k;
     savedApiKey := k; isValidKey := Some true; isValidating := false;
     validationMessage := []; prompt := q; response := VStr [];
     isLoading := false; errorMessage := []; showApiKey := false |}.

End App.

(** ** Strings: [trim] and blank strings *)

Lemma str_eqb_eq (a b : jsstring) : str_eqb a b = true <-> a = b.
Proof.
  unfold str_eqb. destruct (list_eq_dec N.eq_dec a b); split; congruence.
Qed.

Lemma str_eqb_refl (a : jsstring) : str_eqb a a = true.
Proof. now apply str_eqb_eq. Qed.

Lemma blank_app (s t : jsstring) : blank (s ++ t) = blank s && blank t.
Proof. apply forallb_app. Qed.

Lemma blank_rev (s : jsstring) : blank (rev s) = blank s.
Proof.
  induction s as [|c s IH]; simpl; [reflexivity|].
  rewrite blank_app, IH. simpl. rewrite andb_true_r. apply andb_comm.
Qed.

Lemma trimStart_blank (s : jsstring) : blank s = true -> trimStart s = [].
Proof.
  induction s as [|c s IH]; simpl; [reflexivity|].
  intros H. apply andb_true_iff in H as [Hc Hs]. rewrite Hc. auto.
Qed.

Lemma trimStart_not_blank (s : jsstring) :
  blank s = false -> trimStart s <> [].
Proof.
  induction s as [|c s IH]; simpl; [discriminate|].
  destruct (isWhiteSpace c); simpl; [exact IH | discriminate].
Qed.

(** What stays after [trimStart] is blank only if nothing stays. *)
Lemma blank_trimStart (s : jsstring) :
  blank (trimStart s) = true -> trimStart s = [].
Proof.
  induction s as [|c s IH]; simpl; [reflexivity|].
  destruct (isWhiteSpace c) eqn:Hc; [exact IH|].
  simpl. rewrite Hc. discriminate.
Qed.

(** [!s.trim()] holds exactly of the empty and whitespace-only strings. *)
Lemma not_trim_blank (s : jsstring) : not_trim s = blank s.
Proof.
  unfold not_trim, trim, trimEnd.
  destruct (blank s) eqn:Hb.
  - now rewrite (trimStart_blank s Hb).
  - destruct (rev (trimStart (rev (trimStart s)))) as [|c r] eqn:Hr;
      [|reflexivity].
    exfalso. apply (trimStart_not_blank s Hb).
    apply (f_equal (@rev _)) in Hr. rewrite rev_involutive in Hr. simpl in Hr.
    apply blank_trimStart. rewrite <- blank_rev.
    destruct (blank (rev (trimStart s))) eqn:Hb'; [reflexivity|].
    now apply trimStart_not_blank in Hb'.
Qed.

Lemma strict_equals_eq (v : value) (s : jsstring) :
  strict_equals v s = true <-> v = VStr s.
Proof.
  destruct v; simpl; try (split; [discriminate | congruence]).
  rewrite str_eqb_eq. split; congruence.
Qed.

Lemma strict_equals_neq (v : value) (s : jsstring) :
  v <> VStr s -> strict_equals v s = false.
Proof.
  intros H. destruct (strict_equals v s) eqn:E; [|reflexivity].
  now apply strict_equals_eq in E.
Qed.

(** ** Input checks *)

Ltac enter_try :=
  unfold validateApiKey, sendPromptToLLM, try_catch,
         validateApiKey_try, sendPromptToLLM_try;
  rewrite ?not_trim_blank.

Lemma blank_key_validate_run (h : Host) (provider : value) (apiKey : jsstring) :
  blank apiKey = true ->
  validateApiKey provider apiKey h
  = ([], Normal (failure (lit "API key cannot be empty"))).
Proof.
  intros Hk. enter_try. now rewrite Hk.
Qed.

Lemma blank_key_send_run (h : Host) (provider : value)
  (model apiKey prompt : jsstring) :
  blank apiKey = true ->
  sendPromptToLLM provider model apiKey prompt h
  = ([], Normal (failure (lit "API key is required"))).
Proof.
  intros Hk. enter_try. now rewrite Hk.
Qed.

Lemma blank_prompt_send_run (h : Host) (provider : value)
  (model apiKey prompt : jsstring) :
  blank apiKey = false ->
  blank prompt = true ->
  sendPromptToLLM provider model apiKey prompt h
  = ([], Normal (failure (lit "Prompt cannot be empty"))).
Proof.
  intros Hk Hp. enter_try. now rewrite Hk, Hp.
Qed.

Lemma unknown_provider_validate_run (h : Host) (provider : value)
  (apiKey : jsstring) :
  unrecognized provider ->
  blank apiKey = false ->
  validateApiKey provider apiKey h
  = ([], Normal (failure (lit "Unknown provider"))).
Proof.
  intros (Ho & Ha & Hg) Hk.
  apply strict_equals_neq in Ho, Ha, Hg.
  enter_try. now rewrite Hk, Ho, Ha, Hg.
Qed.

Lemma unknown_provider_send_run (h : Host) (provider : value)
  (model apiKey prompt : jsstring) :
  unrecognized provider ->
  blank apiKey = false ->
  blank prompt = false ->
  sendPromptToLLM provider model apiKey prompt h
  = ([], Normal (failure (lit "Unknown provider"))).
Proof.
  intros (Ho & Ha & Hg) Hk Hp.
  apply strict_equals_neq in Ho, Ha, Hg.
  enter_try. now rewrite Hk, Hp, Ho, Ha, Hg.
Qed.

(** C6: an empty or whitespace-only credential makes [validateApiKey]
    resolve with [{success:false, message:"API key cannot be empty"}],
    whatever the provider value, and the call leaves no effect at all: in
    particular it issues no network call. *)
Theorem C6_validate_blank_key (h : Host) (provider : value) (apiKey : jsstring) :
  blank apiKey = true ->
  validateApiKey provider apiKey h
  = ([], Normal (failure (lit "API key cannot be empty"))) /\
  fetches (fst (validateApiKey provider apiKey h)) = [].
Proof.
  intros Hk. rewrite (blank_key_validate_run h provider apiKey Hk).
  split; reflexivity.
Qed.

Lemma C6_validate_blank_key_witness :
  blank (lit "  ") = true /\
  validateApiKey (VStr (lit "gemini")) (lit "  ") offline
  = ([], Normal (failure (lit "API key cannot be empty"))) /\
  fetches (fst (validateApiKey (VStr (lit "gemini")) (lit "  ") offline)) = [].
Proof.
  split; [reflexivity|].
  apply (C6_validate_blank_key offline (VStr (lit "gemini")) (lit "  ")).
  reflexivity.
Defined.

(** C5: [sendPromptToLLM] with an empty or whitespace-only credential
    resolves with "API key is required", whatever the prompt (so the
    credential is checked first); with a credential that is not blank and an
    empty or whitespace-only prompt it resolves with "Prompt cannot be
    empty"; in both cases the trace is empty, so no network call was made. *)
Theorem C5_send_input_checks (h : Host) (provider : value)
  (model apiKey prompt : jsstring) :
  (blank apiKey = true ->
   sendPromptToLLM provider model apiKey prompt h
   = ([], Normal (failure (lit "API key is required")))) /\
  (blank apiKey = false -> blank prompt = true ->
   sendPromptToLLM provider model apiKey prompt h
   = ([], Normal (failure (lit "Prompt cannot be empty")))).
Proof.
  split.
  - apply blank_key_send_run.
  - apply blank_prompt_send_run.
Qed.

Lemma C5_send_input_checks_witness :
  (blank [] = true /\
   sendPromptToLLM (VStr (lit "openai")) (lit "gpt-4o") [] [] offline
   = ([], Normal (failure (lit "API key is required")))) /\
  (blank (lit "sk-test") = false /\ blank (lit " ") = true /\
   sendPromptToLLM (VStr (lit "openai")) (lit "gpt-4o") (lit "sk-test")
     (lit " ") offline
   = ([], Normal (failure (lit "Prompt cannot be empty")))).
Proof.
  split.
  - split; [reflexivity|].
    apply (proj1 (C5_send_input_checks offline (VStr (lit "openai"))
                    (lit "gpt-4o") [] [])).
    reflexivity.
  - split; [reflexivity|]. split; [reflexivity|].
    apply (proj2 (C5_send_input_checks offline (VStr (lit "openai"))
                    (lit "gpt-4o") (lit "sk-test") (lit " "))); reflexivity.
Defined.

(** C7: for a provider value outside openai, anthropic and gemini, both
    operations resolve with "Unknown provider" once their input checks
    pass, with an empty trace (no network call); [sendPromptToLLM] reaches
    that check only after the credential and prompt checks, so with a blank
    credential it reports "API key is required" instead. *)
Theorem C7_unknown_provider (h : Host) (provider : value)
  (model apiKey prompt : jsstring) :
  unrecognized provider ->
  (blank apiKey = false ->
   validateApiKey provider apiKey h
   = ([], Normal (failure (lit "Unknown provider")))) /\
  (blank apiKey = false -> blank prompt = false ->
   sendPromptToLLM provider model apiKey prompt h
   = ([], Normal (failure (lit "Unknown provider")))) /\
  (blank apiKey = true ->
   sendPromptToLLM provider model apiKey prompt h
   = ([], Normal (failure (lit "API key is required")))).
Proof.
  intros Hu. repeat split.
  - now apply unknown_provider_validate_run.
  - now apply unknown_provider_send_run.
  - apply blank_key_send_run.
Qed.

Lemma C7_unknown_provider_witness :
  unrecognized (VStr (lit "mistral")) /\
  validateApiKey (VStr (lit "mistral")) (lit "sk-test") offline
  = ([], Normal (failure (lit "Unknown provider"))) /\
  sendPromptToLLM (VStr (lit "mistral")) (lit "m") (lit "sk-test")
    (lit "Hello") offline
  = ([], Normal (failure (lit "Unknown provider"))) /\
  sendPromptToLLM (VStr (lit "mistral")) (lit "m") (lit " ") (lit "Hello")
    offline
  = ([], Normal (failure (lit "API key is required"))).
Proof.
  assert (U : unrecognized (VStr (lit "mistral")))
    by (repeat split; discriminate).
  split; [exact U|].
  split; [|split].
  - apply (proj1 (C7_unknown_provider offline (VStr (lit "mistral")) (lit "m") (lit "sk-test")
                    (lit "Hello") U)).
    reflexivity.
  - apply (proj1 (proj2 (C7_unknown_provider offline (VStr (lit "mistral")) (lit "m") (lit "sk-test")
                           (lit "Hello") U))); reflexivity.
  - apply (proj2 (proj2 (C7_unknown_provider offline (VStr (lit "mistral")) (lit "m") (lit " ")
                           (lit "Hello") U))).
    reflexivity.
Defined.

(** ** The [try]/[catch] boundary *)

Lemma validateApiKey_boundary (h : Host) (provider : value) (apiKey : jsstring) :
  validateApiKey provider apiKey h
  = match validateApiKey_try provider apiKey h with
    | (tr, Normal r) => (tr, Normal r)
    | (tr, Throw t) =>
        (tr ++ [EvConsoleError (lit "API key validation error:") t],
         Normal (failure (lit "Error validating API key: "
                          ++ exception_detail h t)))
    end.
Proof.
  unfold validateApiKey, try_catch.
  destruct (validateApiKey_try provider apiKey h) as [tr [r|t]]; reflexivity.
Qed.

Lemma sendPromptToLLM_boundary (h : Host) (provider : value)
  (model apiKey prompt : jsstring) :
  sendPromptToLLM provider model apiKey prompt h
  = match sendPromptToLLM_try provider model apiKey prompt h with
    | (tr, Normal r) => (tr, Normal r)
    | (tr, Throw t) =>
        (tr ++ [EvConsoleError (lit "LLM API error:") t],
         Normal (failure (lit "Error sending prompt: "
                          ++ exception_detail h t)))
    end.
Proof.
  unfold sendPromptToLLM, try_catch.
  destruct (sendPromptToLLM_try provider model apiKey prompt h) as [tr [r|t]];
    reflexivity.
Qed.

(** C1: whatever the provider value, the strings passed and the behaviour
    of the network, each call of [validateApiKey] and of [sendPromptToLLM]
    resolves with one result and never rejects; and whenever the body of
    the operation throws, the call resolves with success=false and the
    message "Error validating API key: " (resp. "Error sending prompt: ")
    followed by the exception's message when it is an [Error] and by
    "Unknown error" otherwise. *)
Theorem C1_no_exception_escapes (h : Host) (provider : value)
  (model apiKey prompt : jsstring) :
  (exists tr r, validateApiKey provider apiKey h = (tr, Normal r)) /\
  (exists tr r, sendPromptToLLM provider model apiKey prompt h = (tr, Normal r)) /\
  (forall tr t,
     validateApiKey_try provider apiKey h = (tr, Throw t) ->
     resolves_with (validateApiKey provider apiKey h)
       (failure (lit "Error validating API key: " ++ exception_detail h t))) /\
  (forall tr t,
     sendPromptToLLM_try provider model apiKey prompt h = (tr, Throw t) ->
     resolves_with (sendPromptToLLM provider model apiKey prompt h)
       (failure (lit "Error sending prompt: " ++ exception_detail h t))).
Proof.
  repeat split.
  - rewrite validateApiKey_boundary.
    destruct (validateApiKey_try provider apiKey h) as [tr [r|t]]; eauto.
  - rewrite sendPromptToLLM_boundary.
    destruct (sendPromptToLLM_try provider model apiKey prompt h) as [tr [r|t]];
      eauto.
  - intros tr t H. unfold resolves_with.
    now rewrite validateApiKey_boundary, H.
  - intros tr t H. unfold resolves_with.
    now rewrite sendPromptToLLM_boundary, H.
Qed.

Lemma C1_no_exception_escapes_witness :
  (validateApiKey_try (VStr (lit "openai")) (lit "sk-test") offline
   = ([EvFetch (validate_openai_request (lit "sk-test"))],
      Throw (ErrorObject (lit "Failed to fetch"))) /\
   resolves_with (validateApiKey (VStr (lit "openai")) (lit "sk-test") offline)
     (failure (lit "Error validating API key: Failed to fetch"))) /\
  (sendPromptToLLM_try (VStr (lit "gemini")) (lit "gemini-pro") (lit "k")
     (lit "Hello") (host_answering (Normal (json_response 200 gemini_no_candidates)))
   = ([EvFetch (send_gemini_request (lit "gemini-pro") (lit "k") (lit "Hello"))],
      Throw (EngineError (ReadOfUndefined (lit "content")))) /\
   resolves_with
     (sendPromptToLLM (VStr (lit "gemini")) (lit "gemini-pro") (lit "k")
        (lit "Hello") (host_answering (Normal (json_response 200 gemini_no_candidates))))
     (failure (lit "Error sending prompt: Cannot read properties of undefined (reading 'content')"))).
Proof.
  split.
  - split; [reflexivity|].
    apply (proj1 (proj2 (proj2
             (C1_no_exception_escapes offline (VStr (lit "openai")) []
                (lit "sk-test") [])))
             [EvFetch (validate_openai_request (lit "sk-test"))]
             (ErrorObject (lit "Failed to fetch"))).
    reflexivity.
  - split; [reflexivity|].
    apply (proj2 (proj2 (proj2
             (C1_no_exception_escapes
                (host_answering (Normal (json_response 200 gemini_no_candidates)))
                (VStr (lit "gemini")) (lit "gemini-pro") (lit "k") (lit "Hello"))))
             [EvFetch (send_gemini_request (lit "gemini-pro") (lit "k") (lit "Hello"))]
             (EngineError (ReadOfUndefined (lit "content")))).
    reflexivity.
Defined.

(** ** Validation: what the provider's answer leads to *)

Lemma ok_iff_2xx (r : Response) :
  ok r = true <-> (200 <= status r <= 299)%N.
Proof.
  unfold ok. rewrite andb_true_iff, !N.leb_le. tauto.
Qed.

(** The run of [validateApiKey] for a supported provider and a credential
    that is not blank, by cases on what the network and the body do. *)
Lemma validateApiKey_run (h : Host) (p : Provider) (apiKey : jsstring) :
  blank apiKey = false ->
  validateApiKey (provider_id p) apiKey h
  = let req := validate_request p apiKey in
    match fetch_result h req with
    | Throw t => validate_caught h [EvFetch req] t
    | Normal response =>
        if ok response then
          ([EvFetch req],
           Normal (valid (provider_name p ++ lit " API key is valid")))
        else
          match json response with
          | Throw t => validate_caught h [EvFetch req] t
          | Normal error =>
              match error_detail error with
              | Throw t => validate_caught h [EvFetch req] t
              | Normal detail =>
                  ([EvFetch req],
                   Normal (failure (lit "Invalid " ++ provider_name p
                                    ++ lit " API key: " ++ detail)))
              end
          end
    end.
Proof.
  intros Hk. enter_try. rewrite Hk.
  destruct p; cbn [provider_id validate_request provider_name];
    cbv [strict_equals]; rewrite ?str_eqb_refl;
    repeat match goal with
           | |- context [str_eqb ?a ?b] =>
               change (str_eqb a b) with false
           end;
    unfold bind, fetch, response_json, eval, ret;
    match goal with
    | |- context [fetch_result h ?r] => destruct (fetch_result h r) as [resp|t]
    end; try reflexivity;
    destruct (ok resp); try reflexivity;
    destruct (json resp) as [error|t]; try reflexivity;
    destruct (error_detail error) as [detail|t]; reflexivity.
Qed.

(** C2 (as the code has it): for every supported provider, when the
    provider answers a validation probe with a status outside 200..299,
    [validateApiKey] resolves with success=false. If the error body parses
    as JSON in which [error.message] can be read, the message is
    "Invalid <Provider> API key: <detail>", where <detail> is
    [error.message] when that is a non-empty string, "Unknown error" when
    [error] or [error.message] is missing, null or otherwise falsy (the
    empty string included), and in general the text of
    [error.message || 'Unknown error'] whenever the conversion succeeds.
    If the body cannot be parsed, or its detail cannot be read or
    converted, the exception is caught and the message is
    "Error validating API key: " followed by the exception's detail. *)
Theorem C2_invalid_key_message (h : Host) (p : Provider) (apiKey : jsstring)
  (response : Response) :
  blank apiKey = false ->
  fetch_result h (validate_request p apiKey) = Normal response ->
  ok response = false ->
  let req := validate_request p apiKey in
  let run := validateApiKey (provider_id p) apiKey h in
  let invalid detail :=
    ([EvFetch req],
     Normal (failure (lit "Invalid " ++ provider_name p
                      ++ lit " API key: " ++ detail))) in
  let caught t :=
    ([EvFetch req; EvConsoleError (lit "API key validation error:") t],
     Normal (failure (lit "Error validating API key: "
                      ++ exception_detail h t))) in
  (forall error field,
     json response = Normal error ->
     error_message_field error = Normal field ->
     (forall s, field = VStr s -> s <> [] -> run = invalid s) /\
     (ToBoolean field = false -> run = invalid (lit "Unknown error")) /\
     (forall detail,
        ToString (or_else field (VStr (lit "Unknown error"))) = Normal detail ->
        run = invalid detail)) /\
  (forall t, json response = Throw t -> run = caught t) /\
  (forall error t,
     json response = Normal error ->
     error_detail error = Throw t ->
     run = caught t) /\
  (exists r, resolves_with run r /\ success r = false).
Proof.
  intros Hk Hf Hok req run invalid caught.
  assert (R := validateApiKey_run h p apiKey Hk).
  cbv zeta in R. rewrite Hf, Hok in R. fold req in R. fold run in R.
  split; [|split; [|split]].
  - intros error field Hj Hfield.
    assert (G : forall detail,
               ToString (or_else field (VStr (lit "Unknown error")))
               = Normal detail ->
               run = invalid detail).
    { intros detail Hd. rewrite R, Hj. unfold error_detail.
      now rewrite Hfield, Hd. }
    repeat split.
    + intros s -> Hs. apply G. destruct s; [contradiction|reflexivity].
    + intros Hfalsy. apply G. unfold or_else. now rewrite Hfalsy.
    + exact G.
  - intros t Hj. now rewrite R, Hj.
  - intros error t Hj Hd. now rewrite R, Hj, Hd.
  - unfold resolves_with. rewrite R.
    destruct (json response) as [error|t]; [|eexists; split; reflexivity].
    destruct (error_detail error) as [detail|t]; eexists; split; reflexivity.
Qed.

Lemma C2_invalid_key_message_witness :
  validateApiKey (VStr (lit "anthropic")) (lit "sk-ant-bad")
    (host_answering (Normal (json_response 401 invalid_x_api_key)))
  = ([EvFetch (validate_anthropic_request (lit "sk-ant-bad"))],
     Normal (failure (lit "Invalid Anthropic API key: invalid x-api-key")))
  /\
  validateApiKey (VStr (lit "openai")) (lit "sk-bad")
    (host_answering (Normal (unparsable_response 503)))
  = ([EvFetch (validate_openai_request (lit "sk-bad"));
      EvConsoleError (lit "API key validation error:")
        (ErrorObject (lit "Unexpected end of JSON input"))],
     Normal (failure (lit "Error validating API key: Unexpected end of JSON input"))).
Proof.
  split.
  - refine (proj1 (proj1 (C2_invalid_key_message
                            (host_answering
                               (Normal (json_response 401 invalid_x_api_key)))
                            Anthropic (lit "sk-ant-bad")
                            (json_response 401 invalid_x_api_key) _ _ _)
                     invalid_x_api_key (VStr (lit "invalid x-api-key")) _ _)
                  (lit "invalid x-api-key") _ _);
      try reflexivity.
    discriminate.
  - refine (proj1 (proj2 (C2_invalid_key_message
                            (host_answering (Normal (unparsable_response 503)))
                            OpenAI (lit "sk-bad") (unparsable_response 503)
                            _ _ _))
                  (ErrorObject (lit "Unexpected end of JSON input")) _);
      reflexivity.
Defined.

(** C2 does not hold as stated: Gemini answers 400 with a body that is not
    JSON; the message is then the one of the [catch] block, not
    "Invalid Gemini API key: ..." with any detail. *)
Lemma C2_counterexample :
  let h := host_answering (Normal (unparsable_response 400)) in
  ok (unparsable_response 400) = false /\
  resolves_with (validateApiKey (VStr (lit "gemini")) (lit "bad-key") h)
    (failure (lit "Error validating API key: Unexpected end of JSON input")) /\
  forall detail,
    ~ resolves_with (validateApiKey (VStr (lit "gemini")) (lit "bad-key") h)
        (failure (lit "Invalid Gemini API key: " ++ detail)).
Proof.
  split; [reflexivity|]. split; [reflexivity|].
  intros detail H. unfold resolves_with in H. cbv in H. discriminate H.
Qed.

(** ** Dispatch: what the provider's answer leads to *)

(** The run of [sendPromptToLLM] for a supported provider, a credential and
    a prompt that are not blank, by cases on what the network and the body
    do. *)
Lemma sendPromptToLLM_run (h : Host) (p : Provider)
  (model apiKey prompt : jsstring) :
  blank apiKey = false ->
  blank prompt = false ->
  sendPromptToLLM (provider_id p) model apiKey prompt h
  = let req := send_request p model apiKey prompt in
    match fetch_result h req with
    | Throw t => send_caught h [EvFetch req] t
    | Normal response =>
        if ok response then
          match json response with
          | Throw t => send_caught h [EvFetch req] t
          | Normal data =>
              match extract_text p data with
              | Throw t => send_caught h [EvFetch req] t
              | Normal text => ([EvFetch req], Normal (generated text))
              end
          end
        else
          match json response with
          | Throw t => send_caught h [EvFetch req] t
          | Normal error =>
              match error_detail error with
              | Throw t => send_caught h [EvFetch req] t
              | Normal detail =>
                  ([EvFetch req],
                   Normal (failure (provider_name p ++ lit " API error: "
                                    ++ detail)))
              end
          end
    end.
Proof.
  intros Hk Hp. enter_try. rewrite Hk, Hp.
  destruct p; cbn [provider_id send_request provider_name extract_text];
    cbv [strict_equals]; rewrite ?str_eqb_refl;
    repeat match goal with
           | |- context [str_eqb ?a ?b] =>
               change (str_eqb a b) with false
           end;
    unfold bind, fetch, response_json, eval, ret;
    match goal with
    | |- context [fetch_result h ?r] => destruct (fetch_result h r) as [resp|t]
    end; try reflexivity;
    destruct (ok resp); try reflexivity;
    destruct (json resp) as [v|t]; try reflexivity;
    match goal with
    | |- context [error_detail v] =>
        destruct (error_detail v) as [detail|t]; reflexivity
    | |- context [openai_text v] =>
        destruct (openai_text v) as [text|t]; reflexivity
    | |- context [anthropic_text v] =>
        destruct (anthropic_text v) as [text|t]; reflexivity
    | |- context [gemini_text v] =>
        destruct (gemini_text v) as [text|t]; reflexivity
    end.
Qed.

(** Whatever the network does, a dispatch with valid inputs calls [fetch]
    exactly once, a validation likewise. *)
Lemma sendPromptToLLM_fetches (h : Host) (p : Provider)
  (model apiKey prompt : jsstring) :
  blank apiKey = false ->
  blank prompt = false ->
  fetches (fst (sendPromptToLLM (provider_id p) model apiKey prompt h))
  = [send_request p model apiKey prompt].
Proof.
  intros Hk Hp. rewrite (sendPromptToLLM_run h p model apiKey prompt Hk Hp).
  cbv zeta. unfold send_caught.
  destruct (fetch_result h _) as [resp|t]; [|reflexivity].
  destruct (ok resp); destruct (json resp) as [v|t]; try reflexivity.
  - destruct (extract_text p v); reflexivity.
  - destruct (error_detail v); reflexivity.
Qed.

Lemma validateApiKey_fetches (h : Host) (p : Provider) (apiKey : jsstring) :
  blank apiKey = false ->
  fetches (fst (validateApiKey (provider_id p) apiKey h))
  = [validate_request p apiKey].
Proof.
  intros Hk. rewrite (validateApiKey_run h p apiKey Hk).
  cbv zeta. unfold validate_caught.
  destruct (fetch_result h _) as [resp|t]; [|reflexivity].
  destruct (ok resp); [reflexivity|].
  destruct (json resp) as [v|t]; [|reflexivity].
  destruct (error_detail v); reflexivity.
Qed.

Ltac members_cases H :=
  unfold body_member, send_openai_request, send_gemini_request,
    validate_anthropic_request in H;
  cbn [body own_property] in H;
  repeat match type of H with
         | context [str_eqb ?k ?n] =>
             let E := fresh "E" in
             destruct (str_eqb k n) eqn:E;
             [apply str_eqb_eq in E; subst; auto|]
         end;
  try discriminate H.

(** C3 (as the code has it): for OpenAI with a credential and a prompt
    that are not blank, the dispatcher calls [fetch] once, a POST to the
    chat-completions endpoint with bearer authorization and a body holding
    exactly the model, one user message with the raw prompt and temperature
    0.7 (so no output-length cap). On a 2xx response whose body parses as
    JSON in which [choices[0].message.content] can be read, it resolves
    with success=true and that value as data; on a non-2xx response it
    resolves with success=false, and with "OpenAI API error: <detail>"
    when the error body parses as JSON with a readable detail. When the
    body cannot be parsed, or the fields cannot be read, the exception is
    caught and the result is success=false with "Error sending prompt: "
    followed by the exception's detail. *)
Theorem C3_openai_dispatch (h : Host) (model apiKey prompt : jsstring) :
  blank apiKey = false ->
  blank prompt = false ->
  let req := send_openai_request model apiKey prompt in
  let run := sendPromptToLLM (VStr (lit "openai")) model apiKey prompt h in
  let caught t :=
    ([EvFetch req; EvConsoleError (lit "LLM API error:") t],
     Normal (failure (lit "Error sending prompt: " ++ exception_detail h t))) in
  (fetches (fst run) = [req] /\
   method req = lit "POST" /\
   url req = lit "https://api.openai.com/v1/chat/completions" /\
   header (lit "Authorization") (headers req) = Some (lit "Bearer " ++ apiKey) /\
   body_member (lit "model") req = Some (VStr model) /\
   body_member (lit "messages") req
   = Some (VArr [ VObj [ (lit "role", VStr (lit "user"));
                         (lit "content", VStr prompt) ] ]) /\
   body_member (lit "temperature") req = Some (VNum (lit "0.7")) /\
   (forall name v, body_member name req = Some v ->
                   name = lit "model" \/ name = lit "messages" \/
                   name = lit "temperature")) /\
  (forall response data text,
     fetch_result h req = Normal response ->
     ok response = true ->
     json response = Normal data ->
     openai_text data = Normal text ->
     run = ([EvFetch req], Normal (generated text))) /\
  (forall response error detail,
     fetch_result h req = Normal response ->
     ok response = false ->
     json response = Normal error ->
     error_detail error = Normal detail ->
     run = ([EvFetch req],
            Normal (failure (lit "OpenAI API error: " ++ detail)))) /\
  (forall response t,
     fetch_result h req = Normal response ->
     json response = Throw t ->
     run = caught t) /\
  (forall response data t,
     fetch_result h req = Normal response ->
     ok response = true ->
     json response = Normal data ->
     openai_text data = Throw t ->
     run = caught t) /\
  (forall response error t,
     fetch_result h req = Normal response ->
     ok response = false ->
     json response = Normal error ->
     error_detail error = Throw t ->
     run = caught t) /\
  (forall response,
     fetch_result h req = Normal response ->
     ok response = false ->
     exists r, resolves_with run r /\ success r = false).
Proof.
  intros Hk Hp req run caught.
  assert (R : run = _)
    by exact (sendPromptToLLM_run h OpenAI model apiKey prompt Hk Hp).
  cbv zeta in R. cbn [send_request extract_text provider_name] in R.
  fold req in R.
  split; [|split; [|split; [|split; [|split; [|split]]]]].
  - split; [exact (sendPromptToLLM_fetches h OpenAI model apiKey prompt Hk Hp)|].
    repeat (split; [reflexivity|]).
    intros name v H. unfold req in H. members_cases H.
  - intros response data text Hf Hok Hj Ht.
    now rewrite R, Hf, Hok, Hj, Ht.
  - intros response error detail Hf Hok Hj Hd.
    now rewrite R, Hf, Hok, Hj, Hd.
  - intros response t Hf Hj. rewrite R, Hf, Hj.
    destruct (ok response); reflexivity.
  - intros response data t Hf Hok Hj Ht.
    now rewrite R, Hf, Hok, Hj, Ht.
  - intros response error t Hf Hok Hj Hd.
    now rewrite R, Hf, Hok, Hj, Hd.
  - intros response Hf Hok. unfold resolves_with. rewrite R, Hf, Hok.
    destruct (json response) as [error|t]; [|eexists; split; reflexivity].
    destruct (error_detail error) as [detail|t]; eexists; split; reflexivity.
Qed.

Lemma C3_openai_dispatch_witness :
  sendPromptToLLM (VStr (lit "openai")) (lit "gpt-4o") (lit "sk-test")
    (lit "Hello") (host_answering (Normal (json_response 200 openai_hi)))
  = ([EvFetch (send_openai_request (lit "gpt-4o") (lit "sk-test") (lit "Hello"))],
     Normal (generated (VStr (lit "Hi!"))))
  /\
  sendPromptToLLM (VStr (lit "openai")) (lit "gpt-4o") (lit "sk-test")
    (lit "Hello") (host_answering (Normal (json_response 429 quota_exceeded)))
  = ([EvFetch (send_openai_request (lit "gpt-4o") (lit "sk-test") (lit "Hello"))],
     Normal (failure (lit "OpenAI API error: You exceeded your current quota")))
  /\
  sendPromptToLLM (VStr (lit "openai")) (lit "gpt-4o") (lit "sk-test")
    (lit "Hello") (host_answering (Normal (json_response 200 (VObj []))))
  = ([EvFetch (send_openai_request (lit "gpt-4o") (lit "sk-test") (lit "Hello"));
      EvConsoleError (lit "LLM API error:") (EngineError (ReadOfUndefined (lit "0")))],
     Normal (failure (lit "Error sending prompt: Cannot read properties of undefined (reading '0')"))).
Proof.
  split; [|split].
  - refine (proj1 (proj2
              (C3_openai_dispatch
                 (host_answering (Normal (json_response 200 openai_hi)))
                 (lit "gpt-4o") (lit "sk-test") (lit "Hello") _ _))
              (json_response 200 openai_hi) openai_hi (VStr (lit "Hi!")) _ _ _ _);
      reflexivity.
  - refine (proj1 (proj2 (proj2
              (C3_openai_dispatch
                 (host_answering (Normal (json_response 429 quota_exceeded)))
                 (lit "gpt-4o") (lit "sk-test") (lit "Hello") _ _)))
              (json_response 429 quota_exceeded) quota_exceeded
              (lit "You exceeded your current quota") _ _ _ _);
      reflexivity.
  - refine (proj1 (proj2 (proj2 (proj2 (proj2
              (C3_openai_dispatch
                 (host_answering (Normal (json_response 200 (VObj []))))
                 (lit "gpt-4o") (lit "sk-test") (lit "Hello") _ _)))))
              (json_response 200 (VObj [])) (VObj []) (EngineError (ReadOfUndefined (lit "0"))) _ _ _ _);
      reflexivity.
Defined.

(** C3 does not hold as stated: OpenAI answers 200 with the JSON body [{}];
    reading [choices[0]] throws, and the dispatcher resolves with
    success=false. *)
Lemma C3_counterexample :
  let h := host_answering (Normal (json_response 200 (VObj []))) in
  let run := sendPromptToLLM (VStr (lit "openai")) (lit "gpt-4o")
               (lit "sk-test") (lit "Hello") h in
  ok (json_response 200 (VObj [])) = true /\
  resolves_with run
    (failure (lit "Error sending prompt: Cannot read properties of undefined (reading '0')")) /\
  forall text, ~ resolves_with run (generated text).
Proof.
  split; [reflexivity|]. split; [reflexivity|].
  intros text H. unfold resolves_with in H. cbv in H. discriminate H.
Qed.

(** C4 (as the code has it): for Gemini with a credential and a prompt
    that are not blank, the dispatcher calls [fetch] once, a POST to the
    generate-content endpoint with the model name in the URL path and the
    credential as the [key] query parameter, no authorization header, and a
    body nesting contents, parts, text around the raw prompt next to a
    generationConfig with temperature 0.7 and maxOutputTokens 1000. On a
    2xx response whose body parses as JSON in which
    [candidates[0].content.parts[0].text] can be read, it resolves with
    success=true and that value as data; on a non-2xx response it resolves
    with success=false, and with "Gemini API error: <detail>" when the
    error body parses as JSON with a readable detail. When the body cannot
    be parsed, or the fields cannot be read, the exception is caught and
    the result is success=false with "Error sending prompt: " followed by
    the exception's detail. *)
Theorem C4_gemini_dispatch (h : Host) (model apiKey prompt : jsstring) :
  blank apiKey = false ->
  blank prompt = false ->
  let req := send_gemini_request model apiKey prompt in
  let run := sendPromptToLLM (VStr (lit "gemini")) model apiKey prompt h in
  let caught t :=
    ([EvFetch req; EvConsoleError (lit "LLM API error:") t],
     Normal (failure (lit "Error sending prompt: " ++ exception_detail h t))) in
  (fetches (fst run) = [req] /\
   method req = lit "POST" /\
   url req = lit "https://generativelanguage.googleapis.com/v1beta/models/"
             ++ model ++ lit ":generateContent?key=" ++ apiKey /\
   header (lit "Authorization") (headers req) = None /\
   body_member (lit "contents") req
   = Some (VArr [ VObj [ (lit "parts",
                          VArr [ VObj [ (lit "text", VStr prompt) ] ]) ] ]) /\
   body_member (lit "generationConfig") req
   = Some (VObj [ (lit "temperature", VNum (lit "0.7"));
                  (lit "maxOutputTokens", VNum (lit "1000")) ]) /\
   (forall name v, body_member name req = Some v ->
                   name = lit "contents" \/ name = lit "generationConfig")) /\
  (forall response data text,
     fetch_result h req = Normal response ->
     ok response = true ->
     json response = Normal data ->
     gemini_text data = Normal text ->
     run = ([EvFetch req], Normal (generated text))) /\
  (forall response error detail,
     fetch_result h req = Normal response ->
     ok response = false ->
     json response = Normal error ->
     error_detail error = Normal detail ->
     run = ([EvFetch req],
            Normal (failure (lit "Gemini API error: " ++ detail)))) /\
  (forall response t,
     fetch_result h req = Normal response ->
     json response = Throw t ->
     run = caught t) /\
  (forall response data t,
     fetch_result h req = Normal response ->
     ok response = true ->
     json response = Normal data ->
     gemini_text data = Throw t ->
     run = caught t) /\
  (forall response error t,
     fetch_result h req = Normal response ->
     ok response = false ->
     json response = Normal error ->
     error_detail error = Throw t ->
     run = caught t) /\
  (forall response,
     fetch_result h req = Normal response ->
     ok response = false ->
     exists r, resolves_with run r /\ success r = false).
Proof.
  intros Hk Hp req run caught.
  assert (R : run = _)
    by exact (sendPromptToLLM_run h Gemini model apiKey prompt Hk Hp).
  cbv zeta in R. cbn [send_request extract_text provider_name] in R.
  fold req in R.
  split; [|split; [|split; [|split; [|split; [|split]]]]].
  - split; [exact (sendPromptToLLM_fetches h Gemini model apiKey prompt Hk Hp)|].
    repeat (split; [reflexivity|]).
    intros name v H. unfold req in H. members_cases H.
  - intros response data text Hf Hok Hj Ht.
    now rewrite R, Hf, Hok, Hj, Ht.
  - intros response error detail Hf Hok Hj Hd.
    now rewrite R, Hf, Hok, Hj, Hd.
  - intros response t Hf Hj. rewrite R, Hf, Hj.
    destruct (ok response); reflexivity.
  - intros response data t Hf Hok Hj Ht.
    now rewrite R, Hf, Hok, Hj, Ht.
  - intros response error t Hf Hok Hj Hd.
    now rewrite R, Hf, Hok, Hj, Hd.
  - intros response Hf Hok. unfold resolves_with. rewrite R, Hf, Hok.
    destruct (json response) as [error|t]; [|eexists; split; reflexivity].
    destruct (error_detail error) as [detail|t]; eexists; split; reflexivity.
Qed.

Lemma C4_gemini_dispatch_witness :
  sendPromptToLLM (VStr (lit "gemini")) (lit "gemini-1.5-flash") (lit "AIza-test")
    (lit "Hello") (host_answering (Normal (json_response 200 gemini_hi_there)))
  = ([EvFetch (send_gemini_request (lit "gemini-1.5-flash") (lit "AIza-test") (lit "Hello"))],
     Normal (generated (VStr (lit "hi there"))))
  /\
  sendPromptToLLM (VStr (lit "gemini")) (lit "gemini-1.5-flash") (lit "AIza-test")
    (lit "Hello") (host_answering (Normal (json_response 429 quota_exceeded)))
  = ([EvFetch (send_gemini_request (lit "gemini-1.5-flash") (lit "AIza-test") (lit "Hello"))],
     Normal (failure (lit "Gemini API error: You exceeded your current quota")))
  /\
  sendPromptToLLM (VStr (lit "gemini")) (lit "gemini-1.5-flash") (lit "AIza-test")
    (lit "Hello") (host_answering (Normal (json_response 200 (gemini_no_candidates))))
  = ([EvFetch (send_gemini_request (lit "gemini-1.5-flash") (lit "AIza-test") (lit "Hello"));
      EvConsoleError (lit "LLM API error:") (EngineError (ReadOfUndefined (lit "content")))],
     Normal (failure (lit "Error sending prompt: Cannot read properties of undefined (reading 'content')"))).
Proof.
  split; [|split].
  - refine (proj1 (proj2
              (C4_gemini_dispatch
                 (host_answering (Normal (json_response 200 gemini_hi_there)))
                 (lit "gemini-1.5-flash") (lit "AIza-test") (lit "Hello") _ _))
              (json_response 200 gemini_hi_there) gemini_hi_there (VStr (lit "hi there")) _ _ _ _);
      reflexivity.
  - refine (proj1 (proj2 (proj2
              (C4_gemini_dispatch
                 (host_answering (Normal (json_response 429 quota_exceeded)))
                 (lit "gemini-1.5-flash") (lit "AIza-test") (lit "Hello") _ _)))
              (json_response 429 quota_exceeded) quota_exceeded
              (lit "You exceeded your current quota") _ _ _ _);
      reflexivity.
  - refine (proj1 (proj2 (proj2 (proj2 (proj2
              (C4_gemini_dispatch
                 (host_answering (Normal (json_response 200 (gemini_no_candidates))))
                 (lit "gemini-1.5-flash") (lit "AIza-test") (lit "Hello") _ _)))))
              (json_response 200 (gemini_no_candidates)) (gemini_no_candidates) (EngineError (ReadOfUndefined (lit "content"))) _ _ _ _);
      reflexivity.
Defined.

(** C4 does not hold as stated: Gemini answers 200 with the JSON body
    [{"candidates":[]}]; reading [candidates[0].content] throws, and the
    dispatcher resolves with success=false. *)
Lemma C4_counterexample :
  let h := host_answering (Normal (json_response 200 gemini_no_candidates)) in
  let run := sendPromptToLLM (VStr (lit "gemini")) (lit "gemini-1.5-flash")
               (lit "AIza-test") (lit "Hello") h in
  ok (json_response 200 gemini_no_candidates) = true /\
  resolves_with run
    (failure (lit "Error sending prompt: Cannot read properties of undefined (reading 'content')")) /\
  forall text, ~ resolves_with run (generated text).
Proof.
  split; [reflexivity|]. split; [reflexivity|].
  intros text H. unfold resolves_with in H. cbv in H. discriminate H.
Qed.

(** C8 (as the code has it): for Anthropic with a credential that is not
    blank, [validateApiKey] calls [fetch] once, a POST to the messages
    endpoint carrying the credential in the x-api-key header (there is no
    Authorization header), the anthropic-version header 2023-06-01, the
    model claude-3-5-haiku-20241022, max_tokens 1 and the single user
    message "Hello". A 2xx response yields success=true; a non-2xx response
    yields success=false, with the message "Invalid Anthropic API key:
    <detail>" when the error body parses as JSON with a readable detail,
    and otherwise with the caught exception's
    "Error validating API key: <exception detail>". *)
Theorem C8_anthropic_probe (h : Host) (apiKey : jsstring) :
  blank apiKey = false ->
  let req := validate_anthropic_request apiKey in
  let run := validateApiKey (VStr (lit "anthropic")) apiKey h in
  let caught t :=
    ([EvFetch req; EvConsoleError (lit "API key validation error:") t],
     Normal (failure (lit "Error validating API key: "
                      ++ exception_detail h t))) in
  (fetches (fst run) = [req] /\
   method req = lit "POST" /\
   url req = lit "https://api.anthropic.com/v1/messages" /\
   header (lit "x-api-key") (headers req) = Some apiKey /\
   header (lit "Authorization") (headers req) = None /\
   header (lit "anthropic-version") (headers req) = Some (lit "2023-06-01") /\
   body_member (lit "model") req = Some (VStr (lit "claude-3-5-haiku-20241022")) /\
   body_member (lit "max_tokens") req = Some (VNum (lit "1")) /\
   body_member (lit "messages") req
   = Some (VArr [ VObj [ (lit "role", VStr (lit "user"));
                         (lit "content", VStr (lit "Hello")) ] ])) /\
  (forall response,
     fetch_result h req = Normal response ->
     ok response = true ->
     run = ([EvFetch req], Normal (valid (lit "Anthropic API key is valid")))) /\
  (forall response,
     fetch_result h req = Normal response ->
     ok response = false ->
     exists r, resolves_with run r /\ success r = false) /\
  (forall response error detail,
     fetch_result h req = Normal response ->
     ok response = false ->
     json response = Normal error ->
     error_detail error = Normal detail ->
     run = ([EvFetch req],
            Normal (failure (lit "Invalid Anthropic API key: " ++ detail)))) /\
  (forall response t,
     fetch_result h req = Normal response ->
     ok response = false ->
     json response = Throw t ->
     run = caught t) /\
  (forall response error t,
     fetch_result h req = Normal response ->
     ok response = false ->
     json response = Normal error ->
     error_detail error = Throw t ->
     run = caught t).
Proof.
  intros Hk req run caught.
  assert (R := validateApiKey_run h Anthropic apiKey Hk).
  cbv zeta in R. cbn [provider_id validate_request provider_name] in R.
  fold req in R. fold run in R.
  split; [|split; [|split; [|split; [|split]]]].
  - split; [exact (validateApiKey_fetches h Anthropic apiKey Hk)|].
    repeat split.
  - intros response Hf Hok. rewrite R, Hf, Hok. reflexivity.
  - intros response Hf Hok. rewrite R, Hf, Hok. unfold resolves_with.
    destruct (json response) as [error|t]; [|eexists; split; reflexivity].
    destruct (error_detail error) as [detail|t]; eexists; split; reflexivity.
  - intros response error detail Hf Hok Hj Hd.
    rewrite R, Hf, Hok, Hj, Hd. reflexivity.
  - intros response t Hf Hok Hj. now rewrite R, Hf, Hok, Hj.
  - intros response error t Hf Hok Hj Hd. now rewrite R, Hf, Hok, Hj, Hd.
Qed.

Lemma C8_anthropic_probe_witness :
  validateApiKey (VStr (lit "anthropic")) (lit "sk-ant-ok")
    (host_answering (Normal (json_response 200 (VObj []))))
  = ([EvFetch (validate_anthropic_request (lit "sk-ant-ok"))],
     Normal (valid (lit "Anthropic API key is valid")))
  /\
  validateApiKey (VStr (lit "anthropic")) (lit "sk-ant-bad")
    (host_answering (Normal (json_response 401 invalid_x_api_key)))
  = ([EvFetch (validate_anthropic_request (lit "sk-ant-bad"))],
     Normal (failure (lit "Invalid Anthropic API key: invalid x-api-key")))
  /\
  validateApiKey (VStr (lit "anthropic")) (lit "sk-ant-bad")
    (host_answering (Normal (json_response 500 VNull)))
  = ([EvFetch (validate_anthropic_request (lit "sk-ant-bad"));
      EvConsoleError (lit "API key validation error:")
        (EngineError (ReadOfNull (lit "error")))],
     Normal (failure (lit "Error validating API key: Cannot read properties of null (reading 'error')"))).
Proof.
  split; [|split].
  - refine (proj1 (proj2
              (C8_anthropic_probe
                 (host_answering (Normal (json_response 200 (VObj []))))
                 (lit "sk-ant-ok") _))
              (json_response 200 (VObj [])) _ _);
      reflexivity.
  - refine (proj1 (proj2 (proj2 (proj2
              (C8_anthropic_probe
                 (host_answering (Normal (json_response 401 invalid_x_api_key)))
                 (lit "sk-ant-bad") _))))
              (json_response 401 invalid_x_api_key) invalid_x_api_key
              (lit "invalid x-api-key") _ _ _ _);
      reflexivity.
  - refine (proj2 (proj2 (proj2 (proj2 (proj2
              (C8_anthropic_probe
                 (host_answering (Normal (json_response 500 VNull)))
                 (lit "sk-ant-bad") _)))))
              (json_response 500 VNull) VNull
              (EngineError (ReadOfNull (lit "error"))) _ _ _ _);
      reflexivity.
Defined.

(** C8 does not hold as stated: Anthropic answers 502 with an empty body;
    the message is the one of the [catch] block, not
    "Invalid Anthropic API key: ..." with any detail. *)
Lemma C8_counterexample :
  let h := host_answering (Normal (unparsable_response 502)) in
  let run := validateApiKey (VStr (lit "anthropic")) (lit "sk-ant-test") h in
  ok (unparsable_response 502) = false /\
  resolves_with run
    (failure (lit "Error validating API key: Unexpected end of JSON input")) /\
  forall detail,
    ~ resolves_with run (failure (lit "Invalid Anthropic API key: " ++ detail)).
Proof.
  split; [reflexivity|]. split; [reflexivity|].
  intros detail H. unfold resolves_with in H. cbv in H. discriminate H.
Qed.

(** ** Determinism *)

Lemma provider_cases (provider : value) :
  (exists p, provider = provider_id p) \/ unrecognized provider.
Proof.
  destruct (strict_equals provider (lit "openai")) eqn:Ho;
    [apply strict_equals_eq in Ho; left; now exists OpenAI|].
  destruct (strict_equals provider (lit "anthropic")) eqn:Ha;
    [apply strict_equals_eq in Ha; left; now exists Anthropic|].
  destruct (strict_equals provider (lit "gemini")) eqn:Hg;
    [apply strict_equals_eq in Hg; left; now exists Gemini|].
  right. repeat split; intros E; apply strict_equals_eq in E; congruence.
Qed.

Lemma exception_detail_ext (h1 h2 : Host) (t : thrown) :
  (forall e, TypeError_message h1 e = TypeError_message h2 e) ->
  exception_detail h1 t = exception_detail h2 t.
Proof.
  intros He. unfold exception_detail. destruct t; simpl; auto.
Qed.

(** C9: the result of either operation is a function of its arguments and
    of what the network answers to the requests the call issues (the
    engine's wording of its own errors being the same): two invocations
    with the same arguments, run against hosts that answer those requests
    alike, produce the same effects and the same result. *)
Theorem C9_deterministic (h1 h2 : Host) (provider : value)
  (model apiKey prompt : jsstring) :
  (forall e, TypeError_message h1 e = TypeError_message h2 e) ->
  ((forall req,
      In req (fetches (fst (validateApiKey provider apiKey h1))) ->
      fetch_result h1 req = fetch_result h2 req) ->
   validateApiKey provider apiKey h1 = validateApiKey provider apiKey h2) /\
  ((forall req,
      In req (fetches (fst (sendPromptToLLM provider model apiKey prompt h1))) ->
      fetch_result h1 req = fetch_result h2 req) ->
   sendPromptToLLM provider model apiKey prompt h1
   = sendPromptToLLM provider model apiKey prompt h2).
Proof.
  intros He. split; intros Hnet.
  - destruct (blank apiKey) eqn:Hk.
    { now rewrite !blank_key_validate_run by exact Hk. }
    destruct (provider_cases provider) as [[p ->]|Hu].
    + rewrite (validateApiKey_fetches h1 p apiKey Hk) in Hnet.
      specialize (Hnet _ (or_introl eq_refl)).
      rewrite (validateApiKey_run h1 p apiKey Hk),
              (validateApiKey_run h2 p apiKey Hk).
      cbv zeta. rewrite <- Hnet. unfold validate_caught.
      destruct (fetch_result h1 _) as [resp|t];
        [|now rewrite (exception_detail_ext h1 h2 t He)].
      destruct (ok resp); [reflexivity|].
      destruct (json resp) as [v|t];
        [|now rewrite (exception_detail_ext h1 h2 t He)].
      destruct (error_detail v) as [d|t];
        [reflexivity|now rewrite (exception_detail_ext h1 h2 t He)].
    + now rewrite !(unknown_provider_validate_run _ provider apiKey Hu Hk).
  - destruct (blank apiKey) eqn:Hk.
    { now rewrite !blank_key_send_run by exact Hk. }
    destruct (blank prompt) eqn:Hp.
    { now rewrite !blank_prompt_send_run by assumption. }
    destruct (provider_cases provider) as [[p ->]|Hu].
    + rewrite (sendPromptToLLM_fetches h1 p model apiKey prompt Hk Hp) in Hnet.
      specialize (Hnet _ (or_introl eq_refl)).
      rewrite (sendPromptToLLM_run h1 p model apiKey prompt Hk Hp),
              (sendPromptToLLM_run h2 p model apiKey prompt Hk Hp).
      cbv zeta. rewrite <- Hnet. unfold send_caught.
      destruct (fetch_result h1 _) as [resp|t];
        [|now rewrite (exception_detail_ext h1 h2 t He)].
      destruct (ok resp); destruct (json resp) as [v|t];
        try now rewrite (exception_detail_ext h1 h2 t He).
      * destruct (extract_text p v) as [d|t];
          [reflexivity|now rewrite (exception_detail_ext h1 h2 t He)].
      * destruct (error_detail v) as [d|t];
          [reflexivity|now rewrite (exception_detail_ext h1 h2 t He)].
    + now rewrite !(unknown_provider_send_run _ provider model apiKey prompt
                      Hu Hk Hp).
Qed.

Lemma C9_deterministic_witness :
  validateApiKey (VStr (lit "anthropic")) (lit "sk-ant-ok")
    (host_answering (Normal (json_response 200 openai_hi)))
  = validateApiKey (VStr (lit "anthropic")) (lit "sk-ant-ok") (post_only openai_hi)
  /\
  sendPromptToLLM (VStr (lit "openai")) (lit "gpt-4o") (lit "sk-test") (lit "Hello")
    (host_answering (Normal (json_response 200 openai_hi)))
  = sendPromptToLLM (VStr (lit "openai")) (lit "gpt-4o") (lit "sk-test")
      (lit "Hello") (post_only openai_hi).
Proof.
  split.
  - apply (proj1 (C9_deterministic
                    (host_answering (Normal (json_response 200 openai_hi)))
                    (post_only openai_hi) (VStr (lit "anthropic"))
                    [] (lit "sk-ant-ok") [] (fun e => eq_refl))).
    intros req [<-|[]]. reflexivity.
  - apply (proj2 (C9_deterministic
                    (host_answering (Normal (json_response 200 openai_hi)))
                    (post_only openai_hi) (VStr (lit "openai"))
                    (lit "gpt-4o") (lit "sk-test") (lit "Hello")
                    (fun e => eq_refl))).
    intros req [<-|[]]. reflexivity.
Defined.

(** ** The shape of results *)

Lemma app_lit_nonempty (c : ascii) (s : string) (t : jsstring) :
  lit (String c s) ++ t <> [].
Proof. discriminate. Qed.

Lemma provider_name_nonempty (p : Provider) (t : jsstring) :
  provider_name p ++ t <> [].
Proof. destruct p; discriminate. Qed.

Ltac failure_shape :=
  cbn [success message data failure valid];
  split; [eexists; split; [reflexivity|]|reflexivity];
  first [ apply app_lit_nonempty | apply provider_name_nonempty | discriminate ].

(** C10 (as the code has it): every result with success=false carries a
    non-empty message and no data; every result of [validateApiKey],
    success or not, carries a non-empty message and no data; and every
    result of [sendPromptToLLM] with success=true carries no message and
    has its data set to the value read at the provider's extraction path
    in the parsed body of a 2xx response, whatever that value is. *)
Theorem C10_result_shape (h : Host) (provider : value)
  (model apiKey prompt : jsstring) (r : ApiResponse) :
  (resolves_with (validateApiKey provider apiKey h) r ->
   (exists m, message r = Some m /\ m <> []) /\ data r = None) /\
  (resolves_with (sendPromptToLLM provider model apiKey prompt h) r ->
   if success r then
     message r = None /\
     exists p response body v,
       provider = provider_id p /\
       fetch_result h (send_request p model apiKey prompt) = Normal response /\
       ok response = true /\
       json response = Normal body /\
       extract_text p body = Normal v /\
       data r = Some v
   else
     (exists m, message r = Some m /\ m <> []) /\ data r = None).
Proof.
  unfold resolves_with. split.
  - destruct (blank apiKey) eqn:Hk.
    { rewrite (blank_key_validate_run h provider apiKey Hk).
      intros [= <-]. failure_shape. }
    destruct (provider_cases provider) as [[p ->]|Hu].
    + rewrite (validateApiKey_run h p apiKey Hk). cbv zeta.
      unfold validate_caught.
      destruct (fetch_result h _) as [resp|t];
        [|intros [= <-]; failure_shape].
      destruct (ok resp); [intros [= <-]; failure_shape|].
      destruct (json resp) as [v|t]; [|intros [= <-]; failure_shape].
      destruct (error_detail v) as [d|t]; intros [= <-]; failure_shape.
    + rewrite (unknown_provider_validate_run h provider apiKey Hu Hk).
      intros [= <-]. failure_shape.
  - destruct (blank apiKey) eqn:Hk.
    { rewrite (blank_key_send_run h provider model apiKey prompt Hk).
      intros [= <-]. failure_shape. }
    destruct (blank prompt) eqn:Hp.
    { rewrite (blank_prompt_send_run h provider model apiKey prompt Hk Hp).
      intros [= <-]. failure_shape. }
    destruct (provider_cases provider) as [[p ->]|Hu].
    + rewrite (sendPromptToLLM_run h p model apiKey prompt Hk Hp). cbv zeta.
      unfold send_caught.
      destruct (fetch_result h _) as [resp|t] eqn:Hf;
        [|intros [= <-]; failure_shape].
      destruct (ok resp) eqn:Hok; destruct (json resp) as [v|t] eqn:Hj;
        try (intros [= <-]; failure_shape).
      * destruct (extract_text p v) as [text|t] eqn:Ht;
          [|intros [= <-]; failure_shape].
        intros [= <-]. cbn [success message data generated].
        split; [reflexivity|]. exists p, resp, v, text. auto 10.
      * destruct (error_detail v) as [d|t]; intros [= <-]; failure_shape.
    + rewrite (unknown_provider_send_run h provider model apiKey prompt Hu Hk Hp).
      intros [= <-]. failure_shape.
Qed.

Lemma C10_result_shape_witness :
  ((exists m, message (valid (lit "Anthropic API key is valid")) = Some m /\ m <> []) /\
   data (valid (lit "Anthropic API key is valid")) = None)
  /\
  (message (generated (VStr (lit "Hi!"))) = None /\
   exists p response body v,
     VStr (lit "openai") = provider_id p /\
     fetch_result (host_answering (Normal (json_response 200 openai_hi)))
       (send_request p (lit "gpt-4o") (lit "sk-test") (lit "Hello"))
     = Normal response /\
     ok response = true /\
     json response = Normal body /\
     extract_text p body = Normal v /\
     data (generated (VStr (lit "Hi!"))) = Some v).
Proof.
  split.
  - apply (proj1 (C10_result_shape
                    (host_answering (Normal (json_response 200 (VObj []))))
                    (VStr (lit "anthropic")) [] (lit "sk-ant-ok") []
                    (valid (lit "Anthropic API key is valid")))).
    reflexivity.
  - apply (proj2 (C10_result_shape
                    (host_answering (Normal (json_response 200 openai_hi)))
                    (VStr (lit "openai")) (lit "gpt-4o") (lit "sk-test")
                    (lit "Hello") (generated (VStr (lit "Hi!"))))).
    reflexivity.
Defined.

(** C10 does not hold as stated: OpenAI answers 200 with a first choice
    whose message has no content; the dispatcher resolves with success=true
    and [undefined] as data, not with a text. *)
Lemma C10_counterexample :
  let h := host_answering (Normal (json_response 200 openai_no_content)) in
  let run := sendPromptToLLM (VStr (lit "openai")) (lit "gpt-4o")
               (lit "sk-test") (lit "Hello") h in
  resolves_with run (generated VUndefined) /\
  success (generated VUndefined) = true /\
  forall s, ~ resolves_with run (generated (VStr s)).
Proof.
  split; [reflexivity|]. split; [reflexivity|].
  intros s H. unfold resolves_with in H. cbv in H. discriminate H.
Qed.

(** ** Further properties of the adapter layer *)

Lemma validate_success_spec (h : Host) (provider : value)
  (apiKey : jsstring) (r : ApiResponse) :
  resolves_with (validateApiKey provider apiKey h) r ->
  (success r = true <->
   blank apiKey = false /\
   exists p response,
     provider = provider_id p /\
     fetch_result h (validate_request p apiKey) = Normal response /\
     ok response = true).
Proof.
  unfold resolves_with. intros H. split.
  - intros Hs. destruct (blank apiKey) eqn:Hk.
    { rewrite (blank_key_validate_run h provider apiKey Hk) in H.
      injection H as <-. discriminate Hs. }
    split; [reflexivity|].
    destruct (provider_cases provider) as [[p ->]|Hu].
    + exists p. rewrite (validateApiKey_run h p apiKey Hk) in H. cbv zeta in H.
      unfold validate_caught in H.
      destruct (fetch_result h _) as [resp|t];
        [|injection H as <-; discriminate Hs].
      exists resp. destruct (ok resp) eqn:Hok; [auto|].
      destruct (json resp) as [v|t]; [|injection H as <-; discriminate Hs].
      destruct (error_detail v); injection H as <-; discriminate Hs.
    + rewrite (unknown_provider_validate_run h provider apiKey Hu Hk) in H.
      injection H as <-. discriminate Hs.
  - intros (Hk & p & resp & -> & Hf & Hok).
    rewrite (validateApiKey_run h p apiKey Hk) in H. cbv zeta in H.
    rewrite Hf, Hok in H. now injection H as <-.
Qed.

(** A validation succeeds exactly when the provider is one of the three,
    the credential is not blank and the provider answered the probe with a
    2xx status; the body of that answer plays no part. *)
Theorem validate_success_iff_accepted (h : Host) (provider : value)
  (apiKey : jsstring) (r : ApiResponse) :
  resolves_with (validateApiKey provider apiKey h) r ->
  (success r = true <->
   blank apiKey = false /\
   exists p response,
     provider = provider_id p /\
     fetch_result h (validate_request p apiKey) = Normal response /\
     ok response = true).
Proof.
  intros H. exact (validate_success_spec h provider apiKey r H).
Qed.

Lemma validate_success_iff_accepted_witness :
  success (valid (lit "Gemini API key is valid")) = true <->
  blank (lit "AIza-ok") = false /\
  exists p response,
    VStr (lit "gemini") = provider_id p /\
    fetch_result (host_answering (Normal (unparsable_response 204)))
      (validate_request p (lit "AIza-ok")) = Normal response /\
    ok response = true.
Proof.
  apply (validate_success_iff_accepted
           (host_answering (Normal (unparsable_response 204)))
           (VStr (lit "gemini")) (lit "AIza-ok")).
  reflexivity.
Defined.

(** Neither operation ever calls [fetch] more than once, whatever its
    arguments and whatever the network does: there is no retry. *)
Theorem at_most_one_fetch (h : Host) (provider : value)
  (model apiKey prompt : jsstring) :
  List.length (fetches (fst (validateApiKey provider apiKey h))) <= 1 /\
  List.length (fetches (fst (sendPromptToLLM provider model apiKey prompt h))) <= 1.
Proof.
  split.
  - destruct (blank apiKey) eqn:Hk.
    { rewrite (blank_key_validate_run h provider apiKey Hk). simpl. auto. }
    destruct (provider_cases provider) as [[p ->]|Hu].
    + rewrite (validateApiKey_fetches h p apiKey Hk). simpl. auto.
    + rewrite (unknown_provider_validate_run h provider apiKey Hu Hk).
      simpl. auto.
  - destruct (blank apiKey) eqn:Hk.
    { rewrite (blank_key_send_run h provider model apiKey prompt Hk).
      simpl. auto. }
    destruct (blank prompt) eqn:Hp.
    { rewrite (blank_prompt_send_run h provider model apiKey prompt Hk Hp).
      simpl. auto. }
    destruct (provider_cases provider) as [[p ->]|Hu].
    + rewrite (sendPromptToLLM_fetches h p model apiKey prompt Hk Hp).
      simpl. auto.
    + rewrite (unknown_provider_send_run h provider model apiKey prompt Hu Hk Hp).
      simpl. auto.
Qed.

(** For Anthropic with a credential and a prompt that are not blank, the
    dispatcher calls [fetch] once: a POST to the messages endpoint with the
    credential in x-api-key, anthropic-version 2023-06-01 and a body made
    of exactly the model, max_tokens 1000 and one user message with the raw
    prompt (no temperature). On a 2xx response in whose parsed body
    [content[0].text] can be read it resolves with that value as data; on a
    non-2xx response with a readable detail, with
    "Anthropic API error: <detail>". *)
Theorem anthropic_dispatch (h : Host) (model apiKey prompt : jsstring) :
  blank apiKey = false ->
  blank prompt = false ->
  let req := send_anthropic_request model apiKey prompt in
  let run := sendPromptToLLM (VStr (lit "anthropic")) model apiKey prompt h in
  (fetches (fst run) = [req] /\
   method req = lit "POST" /\
   url req = lit "https://api.anthropic.com/v1/messages" /\
   header (lit "x-api-key") (headers req) = Some apiKey /\
   header (lit "Authorization") (headers req) = None /\
   header (lit "anthropic-version") (headers req) = Some (lit "2023-06-01") /\
   body_member (lit "model") req = Some (VStr model) /\
   body_member (lit "max_tokens") req = Some (VNum (lit "1000")) /\
   body_member (lit "messages") req
   = Some (VArr [ VObj [ (lit "role", VStr (lit "user"));
                         (lit "content", VStr prompt) ] ]) /\
   (forall name v, body_member name req = Some v ->
                   name = lit "model" \/ name = lit "max_tokens" \/
                   name = lit "messages")) /\
  (forall response data text,
     fetch_result h req = Normal response ->
     ok response = true ->
     json response = Normal data ->
     anthropic_text data = Normal text ->
     run = ([EvFetch req], Normal (generated text))) /\
  (forall response error detail,
     fetch_result h req = Normal response ->
     ok response = false ->
     json response = Normal error ->
     error_detail error = Normal detail ->
     run = ([EvFetch req],
            Normal (failure (lit "Anthropic API error: " ++ detail)))).
Proof.
  intros Hk Hp req run.
  assert (R := sendPromptToLLM_run h Anthropic model apiKey prompt Hk Hp).
  cbv zeta in R.
  cbn [provider_id send_request provider_name extract_text] in R.
  fold req in R. fold run in R.
  split; [|split].
  - split; [exact (sendPromptToLLM_fetches h Anthropic model apiKey prompt Hk Hp)|].
    repeat (split; [reflexivity|]).
    intros name v H. unfold req, body_member, send_anthropic_request in H.
    cbn [body own_property] in H.
    repeat match type of H with
           | context [str_eqb ?k ?n] =>
               let E := fresh "E" in
               destruct (str_eqb k n) eqn:E;
               [apply str_eqb_eq in E; subst; auto|]
           end.
    discriminate H.
  - intros response data text Hf Hok Hj Ht. now rewrite R, Hf, Hok, Hj, Ht.
  - intros response error detail Hf Hok Hj Hd. now rewrite R, Hf, Hok, Hj, Hd.
Qed.

Lemma anthropic_dispatch_witness :
  sendPromptToLLM (VStr (lit "anthropic")) (lit "claude-3-5-haiku-20241022")
    (lit "sk-ant-ok") (lit "Hello")
    (host_answering (Normal (json_response 200 anthropic_hello)))
  = ([EvFetch (send_anthropic_request (lit "claude-3-5-haiku-20241022")
                 (lit "sk-ant-ok") (lit "Hello"))],
     Normal (generated (VStr (lit "Hello!"))))
  /\
  sendPromptToLLM (VStr (lit "anthropic")) (lit "claude-3-5-haiku-20241022")
    (lit "sk-ant-ok") (lit "Hello")
    (host_answering (Normal (json_response 429 quota_exceeded)))
  = ([EvFetch (send_anthropic_request (lit "claude-3-5-haiku-20241022")
                 (lit "sk-ant-ok") (lit "Hello"))],
     Normal (failure (lit "Anthropic API error: You exceeded your current quota"))).
Proof.
  split.
  - refine (proj1 (proj2
              (anthropic_dispatch
                 (host_answering (Normal (json_response 200 anthropic_hello)))
                 (lit "claude-3-5-haiku-20241022") (lit "sk-ant-ok")
                 (lit "Hello") _ _))
              (json_response 200 anthropic_hello) anthropic_hello
              (VStr (lit "Hello!")) _ _ _ _);
      reflexivity.
  - refine (proj2 (proj2
              (anthropic_dispatch
                 (host_answering (Normal (json_response 429 quota_exceeded)))
                 (lit "claude-3-5-haiku-20241022") (lit "sk-ant-ok")
                 (lit "Hello") _ _))
              (json_response 429 quota_exceeded) quota_exceeded
              (lit "You exceeded your current quota") _ _ _ _);
      reflexivity.
Defined.

(** The validation probes of OpenAI and Gemini are single GET requests
    without a body: OpenAI's goes to the model list with the credential as
    a bearer token, Gemini's to its model list with the credential as the
    [key] query parameter and in no header. A 2xx answer yields
    "<Provider> API key is valid" without reading the body. *)
Theorem openai_gemini_probes (h : Host) (apiKey : jsstring) :
  blank apiKey = false ->
  let oreq := validate_openai_request apiKey in
  let greq := validate_gemini_request apiKey in
  let orun := validateApiKey (VStr (lit "openai")) apiKey h in
  let grun := validateApiKey (VStr (lit "gemini")) apiKey h in
  (fetches (fst orun) = [oreq] /\
   method oreq = lit "GET" /\
   url oreq = lit "https://api.openai.com/v1/models" /\
   header (lit "Authorization") (headers oreq) = Some (lit "Bearer " ++ apiKey) /\
   body oreq = None) /\
  (fetches (fst grun) = [greq] /\
   method greq = lit "GET" /\
   url greq = lit "https://generativelanguage.googleapis.com/v1beta/models?key="
              ++ apiKey /\
   headers greq = [ (lit "Content-Type", lit "application/json") ] /\
   body greq = None) /\
  (forall response,
     fetch_result h oreq = Normal response -> ok response = true ->
     orun = ([EvFetch oreq], Normal (valid (lit "OpenAI API key is valid")))) /\
  (forall response,
     fetch_result h greq = Normal response -> ok response = true ->
     grun = ([EvFetch greq], Normal (valid (lit "Gemini API key is valid")))).
Proof.
  intros Hk oreq greq orun grun.
  assert (Ro := validateApiKey_run h OpenAI apiKey Hk).
  assert (Rg := validateApiKey_run h Gemini apiKey Hk).
  cbv zeta in Ro, Rg.
  cbn [provider_id validate_request provider_name] in Ro, Rg.
  fold oreq in Ro. fold orun in Ro. fold greq in Rg. fold grun in Rg.
  split; [|split; [|split]].
  - split; [exact (validateApiKey_fetches h OpenAI apiKey Hk)|]. repeat split.
  - split; [exact (validateApiKey_fetches h Gemini apiKey Hk)|]. repeat split.
  - intros response Hf Hok. now rewrite Ro, Hf, Hok.
  - intros response Hf Hok. now rewrite Rg, Hf, Hok.
Qed.

Lemma openai_gemini_probes_witness :
  validateApiKey (VStr (lit "openai")) (lit "sk-ok")
    (host_answering (Normal (unparsable_response 200)))
  = ([EvFetch (validate_openai_request (lit "sk-ok"))],
     Normal (valid (lit "OpenAI API key is valid")))
  /\
  validateApiKey (VStr (lit "gemini")) (lit "AIza-ok")
    (host_answering (Normal (unparsable_response 200)))
  = ([EvFetch (validate_gemini_request (lit "AIza-ok"))],
     Normal (valid (lit "Gemini API key is valid"))).
Proof.
  split.
  - refine (proj1 (proj2 (proj2
              (openai_gemini_probes
                 (host_answering (Normal (unparsable_response 200)))
                 (lit "sk-ok") _)))
              (unparsable_response 200) _ _);
      reflexivity.
  - refine (proj2 (proj2 (proj2
              (openai_gemini_probes
                 (host_answering (Normal (unparsable_response 200)))
                 (lit "AIza-ok") _)))
              (unparsable_response 200) _ _);
      reflexivity.
Defined.

(** When the provider's non-2xx answer is JSON whose [error] member is
    missing or is not an object (a string, say), both operations report
    "Unknown error" as the detail, for every provider. *)
Theorem unknown_error_fallback (h : Host) (p : Provider)
  (model apiKey prompt : jsstring) (error inner : value) :
  blank apiKey = false ->
  Get error (lit "error") = Normal inner ->
  (forall props, inner <> VObj props) ->
  (forall response,
     fetch_result h (validate_request p apiKey) = Normal response ->
     ok response = false ->
     json response = Normal error ->
     resolves_with (validateApiKey (provider_id p) apiKey h)
       (failure (lit "Invalid " ++ provider_name p
                 ++ lit " API key: Unknown error"))) /\
  (forall response,
     blank prompt = false ->
     fetch_result h (send_request p model apiKey prompt) = Normal response ->
     ok response = false ->
     json response = Normal error ->
     resolves_with (sendPromptToLLM (provider_id p) model apiKey prompt h)
       (failure (provider_name p ++ lit " API error: Unknown error"))).
Proof.
  intros Hk Hget Hinner.
  assert (D : error_detail error = Normal (lit "Unknown error")).
  { unfold error_detail, error_message_field. rewrite Hget.
    destruct inner; try reflexivity. now elim (Hinner props). }
  unfold resolves_with. split.
  - intros response Hf Hok Hj.
    rewrite (validateApiKey_run h p apiKey Hk). cbv zeta.
    rewrite Hf, Hok, Hj, D. destruct p; reflexivity.
  - intros response Hp Hf Hok Hj.
    rewrite (sendPromptToLLM_run h p model apiKey prompt Hk Hp). cbv zeta.
    rewrite Hf, Hok, Hj, D. destruct p; reflexivity.
Qed.

Lemma unknown_error_fallback_witness :
  resolves_with
    (validateApiKey (VStr (lit "openai")) (lit "sk-bad")
       (host_answering (Normal (json_response 401 error_as_text))))
    (failure (lit "Invalid OpenAI API key: Unknown error"))
  /\
  resolves_with
    (sendPromptToLLM (VStr (lit "gemini")) (lit "gemini-1.5-pro") (lit "AIza-bad")
       (lit "Hello") (host_answering (Normal (json_response 403 (VObj [])))))
    (failure (lit "Gemini API error: Unknown error")).
Proof.
  split.
  - refine (proj1 (unknown_error_fallback
                     (host_answering (Normal (json_response 401 error_as_text)))
                     OpenAI [] (lit "sk-bad") [] error_as_text
                     (VStr (lit "unauthorized")) _ _ _)
                  (json_response 401 error_as_text) _ _ _);
      try reflexivity.
    discriminate.
  - refine (proj2 (unknown_error_fallback
                     (host_answering (Normal (json_response 403 (VObj []))))
                     Gemini (lit "gemini-1.5-pro") (lit "AIza-bad") (lit "Hello")
                     (VObj []) VUndefined _ _ _)
                  (json_response 403 (VObj [])) _ _ _ _);
      try reflexivity.
    discriminate.
Defined.

Lemma validate_request_inj (p : Provider) (k k' : jsstring) :
  validate_request p k = validate_request p k' -> k = k'.
Proof.
  destruct p; intros H.
  - apply (f_equal headers) in H. cbn [headers validate_request
      validate_openai_request] in H.
    injection H as E. exact E.
  - apply (f_equal headers) in H. cbn [headers validate_request
      validate_anthropic_request] in H.
    now injection H as E.
  - apply (f_equal url) in H. cbn [url validate_request
      validate_gemini_request] in H.
    now apply app_inv_head in H.
Qed.

Lemma send_request_inj (p : Provider) (m q k k' : jsstring) :
  send_request p m k q = send_request p m k' q -> k = k'.
Proof.
  destruct p; intros H.
  - apply (f_equal headers) in H. cbn [headers send_request
      send_openai_request] in H.
    injection H as E. exact E.
  - apply (f_equal headers) in H. cbn [headers send_request
      send_anthropic_request] in H.
    now injection H as E.
  - apply (f_equal url) in H. cbn [url send_request
      send_gemini_request] in H.
    apply app_inv_head in H. apply app_inv_head in H.
    now apply app_inv_head in H.
Qed.

(** The operations trim the credential for the emptiness check only: the
    arguments they hand to [fetch] (the header value, or the URL string)
    are built from the credential as given. For a credential that is not
    blank but carries leading or trailing white space, those arguments
    differ from the ones the trimmed credential would give. What [fetch]
    itself normalises afterwards is outside the code and not stated. *)
Theorem fetch_arguments_untrimmed (h : Host) (p : Provider)
  (model apiKey prompt : jsstring) :
  blank apiKey = false ->
  trim apiKey <> apiKey ->
  (fetches (fst (validateApiKey (provider_id p) apiKey h))
   = [validate_request p apiKey] /\
   validate_request p apiKey <> validate_request p (trim apiKey)) /\
  (blank prompt = false ->
   fetches (fst (sendPromptToLLM (provider_id p) model apiKey prompt h))
   = [send_request p model apiKey prompt] /\
   send_request p model apiKey prompt
   <> send_request p model (trim apiKey) prompt).
Proof.
  intros Hk Ht. split; [|intros Hp]; split.
  - exact (validateApiKey_fetches h p apiKey Hk).
  - intros E. apply validate_request_inj in E. congruence.
  - exact (sendPromptToLLM_fetches h p model apiKey prompt Hk Hp).
  - intros E. apply send_request_inj in E. congruence.
Qed.

Lemma fetch_arguments_untrimmed_witness :
  (fetches (fst (validateApiKey (VStr (lit "openai")) (lit "sk-test ") offline))
   = [validate_openai_request (lit "sk-test ")] /\
   validate_openai_request (lit "sk-test ")
   <> validate_openai_request (trim (lit "sk-test "))) /\
  (fetches (fst (sendPromptToLLM (VStr (lit "openai")) (lit "gpt-4o")
                   (lit "sk-test ") (lit "Hello") offline))
   = [send_openai_request (lit "gpt-4o") (lit "sk-test ") (lit "Hello")] /\
   send_openai_request (lit "gpt-4o") (lit "sk-test ") (lit "Hello")
   <> send_openai_request (lit "gpt-4o") (trim (lit "sk-test ")) (lit "Hello")).
Proof.
  assert (Hk : blank (lit "sk-test ") = false) by reflexivity.
  assert (Ht : trim (lit "sk-test ") <> lit "sk-test ") by discriminate.
  split.
  - exact (proj1 (fetch_arguments_untrimmed offline OpenAI (lit "gpt-4o")
                    (lit "sk-test ") (lit "Hello") Hk Ht)).
  - exact (proj2 (fetch_arguments_untrimmed offline OpenAI (lit "gpt-4o")
                    (lit "sk-test ") (lit "Hello") Hk Ht) eq_refl).
Defined.

(** ** The results the two operations can give *)

Ltac console_label :=
  let l := fresh "l" in let t := fresh "t" in let H := fresh "H" in
  intros l t H; simpl in H;
  repeat match type of H with
         | _ \/ _ => destruct H as [H|H]
         | False => destruct H
         | _ = _ => first [discriminate H | now injection H as <- _]
         end.

Lemma validate_outcome (h : Host) (provider : value) (apiKey : jsstring) :
  exists tr r,
    validateApiKey provider apiKey h = (tr, Normal r) /\
    (forall l t, In (EvConsoleError l t) tr ->
                 l = lit "API key validation error:") /\
    (r = failure (lit "API key cannot be empty") \/
     r = failure (lit "Unknown provider") \/
     (exists p, r = valid (provider_name p ++ lit " API key is valid")) \/
     (exists p d, r = failure (lit "Invalid " ++ provider_name p
                               ++ lit " API key: " ++ d)) \/
     (exists t, r = failure (lit "Error validating API key: "
                             ++ exception_detail h t))).
Proof.
  destruct (blank apiKey) eqn:Hk.
  { rewrite (blank_key_validate_run h provider apiKey Hk).
    do 2 eexists. split; [reflexivity|]. split; [console_label|auto]. }
  destruct (provider_cases provider) as [[p ->]|Hu].
  - rewrite (validateApiKey_run h p apiKey Hk). cbv zeta.
    unfold validate_caught.
    destruct (fetch_result h _) as [resp|t].
    2:{ do 2 eexists. split; [reflexivity|]. split; [console_label|].
        do 4 right. now exists t. }
    destruct (ok resp).
    { do 2 eexists. split; [reflexivity|]. split; [console_label|].
      do 2 right. left. now exists p. }
    destruct (json resp) as [v|t].
    2:{ do 2 eexists. split; [reflexivity|]. split; [console_label|].
        do 4 right. now exists t. }
    destruct (error_detail v) as [d|t].
    + do 2 eexists. split; [reflexivity|]. split; [console_label|].
      do 3 right. left. now exists p, d.
    + do 2 eexists. split; [reflexivity|]. split; [console_label|].
      do 4 right. now exists t.
  - rewrite (unknown_provider_validate_run h provider apiKey Hu Hk).
    do 2 eexists. split; [reflexivity|]. split; [console_label|auto].
Qed.

Lemma send_outcome (h : Host) (provider : value)
  (model apiKey prompt : jsstring) :
  exists tr r,
    sendPromptToLLM provider model apiKey prompt h = (tr, Normal r) /\
    (forall l t, In (EvConsoleError l t) tr -> l = lit "LLM API error:") /\
    ((blank apiKey = true /\ r = failure (lit "API key is required")) \/
     (blank prompt = true /\ r = failure (lit "Prompt cannot be empty")) \/
     r = failure (lit "Unknown provider") \/
     (exists v, r = generated v) \/
     (exists p d, r = failure (provider_name p ++ lit " API error: " ++ d)) \/
     (exists t, r = failure (lit "Error sending prompt: "
                             ++ exception_detail h t))).
Proof.
  destruct (blank apiKey) eqn:Hk.
  { rewrite (blank_key_send_run h provider model apiKey prompt Hk).
    do 2 eexists. split; [reflexivity|]. split; [console_label|auto]. }
  destruct (blank prompt) eqn:Hp.
  { rewrite (blank_prompt_send_run h provider model apiKey prompt Hk Hp).
    do 2 eexists. split; [reflexivity|]. split; [console_label|auto]. }
  destruct (provider_cases provider) as [[p ->]|Hu].
  - rewrite (sendPromptToLLM_run h p model apiKey prompt Hk Hp). cbv zeta.
    unfold send_caught.
    destruct (fetch_result h _) as [resp|t].
    2:{ do 2 eexists. split; [reflexivity|]. split; [console_label|].
        do 5 right. now exists t. }
    destruct (ok resp); destruct (json resp) as [v|t];
      try (do 2 eexists; split; [reflexivity|]; split; [console_label|];
           do 5 right; now exists t).
    + destruct (extract_text p v) as [text|t].
      * do 2 eexists. split; [reflexivity|]. split; [console_label|].
        do 3 right. left. now exists text.
      * do 2 eexists. split; [reflexivity|]. split; [console_label|].
        do 5 right. now exists t.
    + destruct (error_detail v) as [d|t].
      * do 2 eexists. split; [reflexivity|]. split; [console_label|].
        do 4 right. left. now exists p, d.
      * do 2 eexists. split; [reflexivity|]. split; [console_label|].
        do 5 right. now exists t.
  - rewrite (unknown_provider_send_run h provider model apiKey prompt Hu Hk Hp).
    do 2 eexists. split; [reflexivity|]. split; [console_label|auto].
Qed.

(** ** The handlers of the shell *)

(** The run of [handleValidateApiKey] on a credential that is not blank,
    from the result [validateApiKey] resolves with. *)
Lemma handleValidateApiKey_run (h : Host) (s : App.State)
  (tr : list event) (r : ApiResponse) :
  blank (App.apiKey s) = false ->
  validateApiKey (App.provider s) (App.apiKey s) h = (tr, Normal r) ->
  App.handleValidateApiKey s h
  = (tr,
     Normal
       (App.setIsValidating false
          (let s' := App.setValidationMessage (App.message_or r [])
                       (App.setIsValidKey (Some (success r))
                          (App.setValidationMessage []
                             (App.setIsValidating true s))) in
           if success r then App.setSavedApiKey (App.apiKey s) s' else s'))).
Proof.
  intros Hk E. unfold App.handleValidateApiKey.
  rewrite not_trim_blank, Hk. unfold bind, try_catch, ret. rewrite E.
  now rewrite !app_nil_r.
Qed.

(** The run of [handleSendPrompt] past its guard, from the result
    [sendPromptToLLM] resolves with. *)
Lemma handleSendPrompt_run (h : Host) (s : App.State)
  (tr : list event) (r : ApiResponse) :
  blank (App.prompt s) = false ->
  App.savedApiKey s <> [] ->
  sendPromptToLLM (App.provider s) (App.model s) (App.savedApiKey s)
    (App.prompt s) h = (tr, Normal r) ->
  App.handleSendPrompt s h
  = (tr,
     Normal
       (App.setIsLoading false
          (let s1 := App.setErrorMessage []
                       (App.setResponse (VStr []) (App.setIsLoading true s)) in
           if App.success_and_data r
           then App.setResponse (App.data_of r) s1
           else App.setErrorMessage
                  (App.message_or r (lit "Unknown error occurred")) s1))).
Proof.
  intros Hp Hs E. unfold App.handleSendPrompt.
  rewrite not_trim_blank, Hp.
  destruct (App.savedApiKey s) as [|c k] eqn:Ek; [contradiction|].
  cbn [App.not_string orb]. unfold bind, try_catch, ret. rewrite E.
  now rewrite !app_nil_r.
Qed.

Ltac state_fields :=
  cbn [App.provider App.model App.apiKey App.savedApiKey App.isValidKey
       App.isValidating App.validationMessage App.prompt App.response
       App.isLoading App.errorMessage App.showApiKey
       App.setSavedApiKey App.setIsValidKey App.setIsValidating
       App.setValidationMessage App.setResponse App.setIsLoading
       App.setErrorMessage App.message_or App.success_and_data App.data_of
       success message data failure valid generated andb].

(** With an empty or whitespace-only credential typed in,
    [handleValidateApiKey] makes no call at all: it marks the key invalid
    with "API key cannot be empty" and leaves the saved credential and the
    validating flag as they were. *)
Theorem validate_handler_blank_key (h : Host) (s : App.State) :
  blank (App.apiKey s) = true ->
  exists s',
    App.handleValidateApiKey s h = ([], Normal s') /\
    App.isValidKey s' = Some false /\
    App.validationMessage s' = lit "API key cannot be empty" /\
    App.savedApiKey s' = App.savedApiKey s /\
    App.isValidating s' = App.isValidating s.
Proof.
  intros Hk. unfold App.handleValidateApiKey. rewrite not_trim_blank, Hk.
  eexists. split; [reflexivity|]. repeat split.
Qed.

Lemma validate_handler_blank_key_witness :
  exists s',
    App.handleValidateApiKey (App.typed_key (VStr (lit "openai")) (lit " "))
      offline = ([], Normal s') /\
    App.isValidKey s' = Some false /\
    App.validationMessage s' = lit "API key cannot be empty" /\
    App.savedApiKey s' = [] /\
    App.isValidating s' = false.
Proof.
  apply (validate_handler_blank_key offline
           (App.typed_key (VStr (lit "openai")) (lit " "))).
  reflexivity.
Defined.

(** [handleValidateApiKey] always runs to completion, whatever the network
    does, and always leaves a verdict and a non-empty message. Its own
    [catch] block is never entered: nothing is logged under
    "Validation error:" and the message is never the bare
    "Error validating API key". After a credential that is not blank, the
    validating flag is cleared. *)
Theorem validate_handler_completes (h : Host) (s : App.State) :
  exists tr s',
    App.handleValidateApiKey s h = (tr, Normal s') /\
    App.isValidKey s' <> None /\
    App.validationMessage s' <> [] /\
    App.validationMessage s' <> lit "Error validating API key" /\
    (forall t, ~ In (EvConsoleError (lit "Validation error:") t) tr) /\
    (blank (App.apiKey s) = false -> App.isValidating s' = false).
Proof.
  destruct (blank (App.apiKey s)) eqn:Hk.
  { destruct (validate_handler_blank_key h s Hk) as (s' & E & Hv & Hm & _).
    exists [], s'. rewrite E, Hv, Hm.
    repeat split; try discriminate. intros t []. }
  destruct (validate_outcome h (App.provider s) (App.apiKey s))
    as (tr & r & E & Hl & Hr).
  rewrite (handleValidateApiKey_run h s tr r Hk E). do 2 eexists.
  split; [reflexivity|].
  assert (L : forall t, ~ In (EvConsoleError (lit "Validation error:") t) tr).
  { intros t Hin. apply Hl in Hin. discriminate Hin. }
  destruct Hr as [->|[->|[[p ->]|[(p & d & ->)|[t ->]]]]]; cbv zeta;
    state_fields.
  - repeat split; try discriminate; auto.
  - repeat split; try discriminate; auto.
  - destruct p; repeat split; try discriminate; auto.
  - destruct p; repeat split; try discriminate; auto.
  - generalize (exception_detail h t). intros d.
    repeat split; try discriminate; auto.
Qed.

(** [handleValidateApiKey] saves the typed credential exactly when the
    provider accepted it (a supported provider answered the probe 2xx) and
    then marks the key valid; otherwise it marks the key invalid and keeps
    whatever credential was saved before. *)
Theorem key_saved_iff_accepted (h : Host) (s s' : App.State)
  (tr : list event) :
  App.handleValidateApiKey s h = (tr, Normal s') ->
  let accepted :=
    blank (App.apiKey s) = false /\
    exists p response,
      App.provider s = provider_id p /\
      fetch_result h (validate_request p (App.apiKey s)) = Normal response /\
      ok response = true in
  (accepted /\ App.isValidKey s' = Some true /\
   App.savedApiKey s' = App.apiKey s) \/
  (~ accepted /\ App.isValidKey s' = Some false /\
   App.savedApiKey s' = App.savedApiKey s).
Proof.
  intros H. cbv zeta.
  destruct (blank (App.apiKey s)) eqn:Hk.
  { right.
    destruct (validate_handler_blank_key h s Hk) as (s0 & E & Hv & _ & Hs & _).
    rewrite E in H. injection H as _ <-.
    split; [|split; assumption]. intros [Hb _]. discriminate Hb. }
  destruct (validate_outcome h (App.provider s) (App.apiKey s))
    as (tr0 & r & E & _ & _).
  rewrite (handleValidateApiKey_run h s tr0 r Hk E) in H. injection H as _ <-.
  assert (S := validate_success_spec h (App.provider s) (App.apiKey s) r).
  unfold resolves_with in S. rewrite E, Hk in S. specialize (S eq_refl).
  destruct (success r) eqn:Hs; state_fields.
  - left. split; [|split; reflexivity]. now apply S.
  - right. split; [|split; reflexivity]. intros A.
    apply (proj2 S) in A. discriminate A.
Qed.

Lemma key_saved_iff_accepted_witness :
  let h := host_answering (Normal (json_response 401 invalid_x_api_key)) in
  let s := App.setSavedApiKey (lit "sk-old")
             (App.typed_key (VStr (lit "openai")) (lit "sk-new")) in
  let s' := App.setIsValidating false
              (App.setValidationMessage
                 (lit "Invalid OpenAI API key: invalid x-api-key")
                 (App.setIsValidKey (Some false)
                    (App.setValidationMessage []
                       (App.setIsValidating true s)))) in
  let accepted :=
    blank (App.apiKey s) = false /\
    exists p response,
      App.provider s = provider_id p /\
      fetch_result h (validate_request p (App.apiKey s)) = Normal response /\
      ok response = true in
  (accepted /\ App.isValidKey s' = Some true /\
   App.savedApiKey s' = lit "sk-new") \/
  (~ accepted /\ App.isValidKey s' = Some false /\
   App.savedApiKey s' = lit "sk-old").
Proof.
  intros h s s'.
  apply (key_saved_iff_accepted h s s'
           [EvFetch (validate_openai_request (lit "sk-new"))]).
  reflexivity.
Defined.

Lemma send_handler_guard_run (h : Host) (s : App.State) :
  (blank (App.prompt s) = true \/ App.savedApiKey s = [] ->
   App.handleSendPrompt s h = ([], Normal s)) /\
  (App.sendDisabled s = false ->
   blank (App.prompt s) = false /\ App.savedApiKey s <> [] /\
   App.isLoading s = false).
Proof.
  split.
  - intros H. unfold App.handleSendPrompt. rewrite not_trim_blank.
    destruct H as [-> | ->]; [reflexivity|].
    now rewrite orb_true_r.
  - unfold App.sendDisabled. rewrite not_trim_blank. intros H.
    apply orb_false_iff in H as [H Hl].
    apply orb_false_iff in H as [Hs Hp].
    repeat split; try assumption.
    intros E. rewrite E in Hs. discriminate Hs.
Qed.

(** Without a prompt or without a saved credential, [handleSendPrompt]
    does nothing at all: no call, no change of state. And whenever the send
    button is enabled, that guard lets the handler through. *)
Theorem send_handler_guard (h : Host) (s : App.State) :
  (blank (App.prompt s) = true \/ App.savedApiKey s = [] ->
   App.handleSendPrompt s h = ([], Normal s)) /\
  (App.sendDisabled s = false ->
   blank (App.prompt s) = false /\ App.savedApiKey s <> [] /\
   App.isLoading s = false).
Proof.
  exact (send_handler_guard_run h s).
Qed.

Lemma send_handler_guard_witness :
  App.handleSendPrompt (App.typed_key (VStr (lit "openai")) (lit "sk-typed"))
    offline
  = ([], Normal (App.typed_key (VStr (lit "openai")) (lit "sk-typed")))
  /\
  (blank (lit "Hello") = false /\ lit "sk-ok" <> [] /\ false = false).
Proof.
  split.
  - apply (proj1 (send_handler_guard offline
                    (App.typed_key (VStr (lit "openai")) (lit "sk-typed")))).
    left. reflexivity.
  - apply (proj2 (send_handler_guard offline
                    (App.ready (VStr (lit "openai")) (lit "gpt-4o")
                       (lit "sk-ok") (lit "Hello")))).
    reflexivity.
Defined.

(** Past its guard, [handleSendPrompt] always runs to completion, clears
    the loading flag, and leaves exactly one thing to show: either a truthy
    response and no error message, or an empty response and a non-empty
    error message. *)
Theorem send_handler_shows_one (h : Host) (s : App.State) :
  blank (App.prompt s) = false ->
  App.savedApiKey s <> [] ->
  exists tr s',
    App.handleSendPrompt s h = (tr, Normal s') /\
    App.isLoading s' = false /\
    ((ToBoolean (App.response s') = true /\ App.errorMessage s' = []) \/
     (App.response s' = VStr [] /\ App.errorMessage s' <> [])).
Proof.
  intros Hp Hs.
  destruct (send_outcome h (App.provider s) (App.model s) (App.savedApiKey s)
              (App.prompt s)) as (tr & r & E & _ & _).
  rewrite (handleSendPrompt_run h s tr r Hp Hs E). do 2 eexists.
  split; [reflexivity|]. cbv zeta.
  destruct (App.success_and_data r) eqn:Hd; state_fields.
  - split; [reflexivity|]. left. split; [|reflexivity].
    unfold App.success_and_data in Hd. apply andb_true_iff in Hd as [_ Hd].
    unfold App.data_of. destruct (data r); [exact Hd|discriminate Hd].
  - split; [reflexivity|]. right. split; [reflexivity|].
    unfold App.message_or. destruct (message r) as [[|c m]|]; discriminate.
Qed.

Lemma send_handler_shows_one_witness :
  exists tr s',
    App.handleSendPrompt
      (App.ready (VStr (lit "openai")) (lit "gpt-4o") (lit "sk-ok") (lit "Hello"))
      offline = (tr, Normal s') /\
    App.isLoading s' = false /\
    ((ToBoolean (App.response s') = true /\ App.errorMessage s' = []) \/
     (App.response s' = VStr [] /\ App.errorMessage s' <> [])).
Proof.
  apply (send_handler_shows_one offline
           (App.ready (VStr (lit "openai")) (lit "gpt-4o") (lit "sk-ok")
              (lit "Hello"))).
  - reflexivity.
  - discriminate.
Defined.

(** The state [handleSendPrompt] leaves after a 2xx answer in whose
    parsed body the provider's text path can be read: when the value read
    is truthy, [response] is set to it and [errorMessage] stays empty; when
    it is falsy (an empty string, a missing field, null), [response] stays
    empty and [errorMessage] is "Unknown error occurred", although the
    dispatcher reported success. *)
Theorem state_after_2xx (h : Host) (s : App.State) (p : Provider)
  (response : Response) (body v : value) :
  blank (App.prompt s) = false ->
  blank (App.savedApiKey s) = false ->
  App.provider s = provider_id p ->
  fetch_result h (send_request p (App.model s) (App.savedApiKey s) (App.prompt s))
  = Normal response ->
  ok response = true ->
  json response = Normal body ->
  extract_text p body = Normal v ->
  exists tr s',
    App.handleSendPrompt s h = (tr, Normal s') /\
    if ToBoolean v
    then App.response s' = v /\ App.errorMessage s' = []
    else App.response s' = VStr [] /\
         App.errorMessage s' = lit "Unknown error occurred".
Proof.
  intros Hp Hk Hprov Hf Hok Hj Hv.
  assert (Hs : App.savedApiKey s <> []).
  { intros E. rewrite E in Hk. discriminate Hk. }
  assert (E := sendPromptToLLM_run h p (App.model s) (App.savedApiKey s)
                 (App.prompt s) Hk Hp).
  cbv zeta in E. rewrite Hf, Hok, Hj, Hv, <- Hprov in E.
  rewrite (handleSendPrompt_run h s _ _ Hp Hs E). do 2 eexists.
  split; [reflexivity|]. cbv zeta. state_fields.
  destruct (ToBoolean v); state_fields; split; reflexivity.
Qed.

Lemma state_after_2xx_witness :
  (exists tr s',
     App.handleSendPrompt
       (App.ready (VStr (lit "openai")) (lit "gpt-4o") (lit "sk-ok") (lit "Hello"))
       (host_answering (Normal (json_response 200 openai_empty_content)))
     = (tr, Normal s') /\
     App.response s' = VStr [] /\
     App.errorMessage s' = lit "Unknown error occurred")
  /\
  (exists tr s',
     App.handleSendPrompt
       (App.ready (VStr (lit "openai")) (lit "gpt-4o") (lit "sk-ok") (lit "Hello"))
       (host_answering (Normal (json_response 200 openai_hi)))
     = (tr, Normal s') /\
     App.response s' = VStr (lit "Hi!") /\
     App.errorMessage s' = []).
Proof.
  split.
  - refine (state_after_2xx
              (host_answering (Normal (json_response 200 openai_empty_content)))
              (App.ready (VStr (lit "openai")) (lit "gpt-4o") (lit "sk-ok")
                 (lit "Hello"))
              OpenAI (json_response 200 openai_empty_content)
              openai_empty_content (VStr []) _ _ _ _ _ _ _);
      reflexivity.
  - refine (state_after_2xx
              (host_answering (Normal (json_response 200 openai_hi)))
              (App.ready (VStr (lit "openai")) (lit "gpt-4o") (lit "sk-ok")
                 (lit "Hello"))
              OpenAI (json_response 200 openai_hi)
              openai_hi (VStr (lit "Hi!")) _ _ _ _ _ _ _);
      reflexivity.
Defined.

(** What [handleValidateApiKey] changes: the provider, model and prompt
    stay, and the saved credential is replaced only by a typed credential
    that is not blank, together with a positive verdict. *)
Lemma validate_handler_effect (h : Host) (s s' : App.State) (tr : list event) :
  App.handleValidateApiKey s h = (tr, Normal s') ->
  App.provider s' = App.provider s /\
  App.model s' = App.model s /\
  App.prompt s' = App.prompt s /\
  ((App.isValidKey s' = Some true /\ blank (App.apiKey s) = false /\
    App.savedApiKey s' = App.apiKey s) \/
   (App.isValidKey s' = Some false /\
    App.savedApiKey s' = App.savedApiKey s)).
Proof.
  intros H. destruct (blank (App.apiKey s)) eqn:Hk.
  { unfold App.handleValidateApiKey in H. rewrite not_trim_blank, Hk in H.
    injection H as _ <-. state_fields.
    repeat (split; [reflexivity|]). right. split; reflexivity. }
  destruct (validate_outcome h (App.provider s) (App.apiKey s))
    as (tr0 & r & E & _ & _).
  rewrite (handleValidateApiKey_run h s tr0 r Hk E) in H. injection H as _ <-.
  cbv zeta. destruct (success r); state_fields;
    repeat (split; [reflexivity|]); [left|right]; repeat split.
Qed.

Lemma send_handler_keeps_key (h : Host) (s s' : App.State) (tr : list event) :
  App.handleSendPrompt s h = (tr, Normal s') ->
  App.savedApiKey s' = App.savedApiKey s.
Proof.
  intros H.
  destruct (blank (App.prompt s)) eqn:Hp.
  { rewrite (proj1 (send_handler_guard_run h s) (or_introl Hp)) in H.
    now injection H as _ <-. }
  destruct (App.savedApiKey s) as [|c k] eqn:Hs.
  { rewrite (proj1 (send_handler_guard_run h s) (or_intror Hs)) in H.
    injection H as _ <-. exact Hs. }
  rewrite <- Hs in *.
  assert (Hne : App.savedApiKey s <> []) by (rewrite Hs; discriminate).
  destruct (send_outcome h (App.provider s) (App.model s) (App.savedApiKey s)
              (App.prompt s)) as (tr0 & r & E & _ & _).
  rewrite (handleSendPrompt_run h s tr0 r Hp Hne E) in H. injection H as _ <-.
  cbv zeta. destruct (App.success_and_data r); reflexivity.
Qed.

(** The saved credential is always either empty or not blank: both
    handlers keep that, [handleSendPrompt] by never touching the saved
    credential. *)
Theorem saved_key_invariant (h : Host) (s s' : App.State) (tr : list event) :
  App.saved_key_ok s ->
  (App.handleValidateApiKey s h = (tr, Normal s') -> App.saved_key_ok s') /\
  (App.handleSendPrompt s h = (tr, Normal s') ->
   App.saved_key_ok s' /\ App.savedApiKey s' = App.savedApiKey s).
Proof.
  unfold App.saved_key_ok. intros Hok. split; intros H.
  - destruct (validate_handler_effect h s s' tr H)
      as (_ & _ & _ & [(_ & Hk & ->)|(_ & ->)]); auto.
  - rewrite (send_handler_keeps_key h s s' tr H). auto.
Qed.

Lemma saved_key_invariant_witness :
  let s := App.typed_key (VStr (lit "openai")) (lit "sk-ok") in
  let s' := App.setIsValidating false
              (App.setSavedApiKey (lit "sk-ok")
                 (App.setValidationMessage (lit "OpenAI API key is valid")
                    (App.setIsValidKey (Some true)
                       (App.setValidationMessage []
                          (App.setIsValidating true s))))) in
  App.saved_key_ok s' /\
  (App.saved_key_ok s /\ App.savedApiKey s = App.savedApiKey s).
Proof.
  intros s s'. split.
  - apply (proj1 (saved_key_invariant
                    (host_answering (Normal (unparsable_response 200)))
                    s s' [EvFetch (validate_openai_request (lit "sk-ok"))]
                    (or_introl eq_refl))).
    reflexivity.
  - apply (proj2 (saved_key_invariant offline s s [] (or_introl eq_refl))).
    reflexivity.
Defined.

(** With a saved credential that is not blank, past the guard of
    [handleSendPrompt] the dispatcher's own input checks never fire and the
    handler's [catch] block is never entered: the error shown is never
    "API key is required", "Prompt cannot be empty" or
    "Error sending prompt to LLM", and nothing is logged under
    "Send prompt error:". *)
Theorem dispatcher_checks_unreachable (h : Host) (s : App.State) :
  blank (App.prompt s) = false ->
  blank (App.savedApiKey s) = false ->
  exists tr s',
    App.handleSendPrompt s h = (tr, Normal s') /\
    App.errorMessage s' <> lit "API key is required" /\
    App.errorMessage s' <> lit "Prompt cannot be empty" /\
    App.errorMessage s' <> lit "Error sending prompt to LLM" /\
    (forall t, ~ In (EvConsoleError (lit "Send prompt error:") t) tr).
Proof.
  intros Hp Hk.
  assert (Hs : App.savedApiKey s <> []).
  { intros E. rewrite E in Hk. discriminate Hk. }
  destruct (send_outcome h (App.provider s) (App.model s) (App.savedApiKey s)
              (App.prompt s)) as (tr & r & E & Hl & Hr).
  rewrite (handleSendPrompt_run h s tr r Hp Hs E). do 2 eexists.
  split; [reflexivity|].
  assert (L : forall t, ~ In (EvConsoleError (lit "Send prompt error:") t) tr).
  { intros t Hin. apply Hl in Hin. discriminate Hin. }
  cbv zeta.
  destruct Hr as [[Hb _]|[[Hb _]|[->|[[v ->]|[(p & d & ->)|[t ->]]]]]];
    try congruence; state_fields.
  - repeat split; try discriminate; auto.
  - destruct (ToBoolean v); state_fields; repeat split; try discriminate; auto.
  - destruct p; repeat split; try discriminate; auto.
  - generalize (exception_detail h t). intros d.
    repeat split; try discriminate; auto.
Qed.

Lemma dispatcher_checks_unreachable_witness :
  exists tr s',
    App.handleSendPrompt
      (App.ready (VStr (lit "gemini")) (lit "gemini-1.5-pro") (lit "AIza-ok")
         (lit "Hello")) offline = (tr, Normal s') /\
    App.errorMessage s' <> lit "API key is required" /\
    App.errorMessage s' <> lit "Prompt cannot be empty" /\
    App.errorMessage s' <> lit "Error sending prompt to LLM" /\
    (forall t, ~ In (EvConsoleError (lit "Send prompt error:") t) tr).
Proof.
  apply (dispatcher_checks_unreachable offline
           (App.ready (VStr (lit "gemini")) (lit "gemini-1.5-pro")
              (lit "AIza-ok") (lit "Hello")));
    reflexivity.
Defined.

(** A failed validation does not clear the credential saved before: if
    [handleValidateApiKey] ends with a negative verdict, a following
    [handleSendPrompt] still sends exactly one request, carrying the
    previously saved credential and not the one just rejected. *)
Theorem failed_validation_keeps_old_key (h h' : Host) (s s1 : App.State)
  (tr : list event) (p : Provider) :
  App.handleValidateApiKey s h = (tr, Normal s1) ->
  App.isValidKey s1 = Some false ->
  blank (App.prompt s) = false ->
  blank (App.savedApiKey s) = false ->
  App.provider s = provider_id p ->
  fetches (fst (App.handleSendPrompt s1 h'))
  = [send_request p (App.model s) (App.savedApiKey s) (App.prompt s)].
Proof.
  intros H Hv Hp Hk Hprov.
  destruct (validate_handler_effect h s s1 tr H)
    as (E1 & E2 & E3 & [(Hv' & _)|(_ & E4)]); [congruence|].
  assert (Hs : App.savedApiKey s1 <> []).
  { rewrite E4. intros E. rewrite E in Hk. discriminate Hk. }
  destruct (send_outcome h' (App.provider s1) (App.model s1)
              (App.savedApiKey s1) (App.prompt s1)) as (tr' & r & E & _ & _).
  assert (Hp1 : blank (App.prompt s1) = false) by now rewrite E3.
  rewrite (handleSendPrompt_run h' s1 tr' r Hp1 Hs E).
  change tr' with (fst (tr', @Normal ApiResponse r)). rewrite <- E.
  rewrite E1, E2, E3, E4, Hprov.
  now apply sendPromptToLLM_fetches.
Qed.

Lemma failed_validation_keeps_old_key_witness :
  let s := App.setSavedApiKey (lit "sk-old")
             (App.ready (VStr (lit "openai")) (lit "gpt-4o") (lit "sk-new")
                (lit "Hello")) in
  let s1 := App.setIsValidating false
              (App.setValidationMessage
                 (lit "Invalid OpenAI API key: invalid x-api-key")
                 (App.setIsValidKey (Some false)
                    (App.setValidationMessage []
                       (App.setIsValidating true s)))) in
  fetches (fst (App.handleSendPrompt s1 offline))
  = [send_openai_request (lit "gpt-4o") (lit "sk-old") (lit "Hello")].
Proof.
  intros s s1.
  apply (failed_validation_keeps_old_key
           (host_answering (Normal (json_response 401 invalid_x_api_key)))
           offline s s1
           [EvFetch (validate_openai_request (lit "sk-new"))] OpenAI);
    reflexivity.
Defined.
